(** * pdf-coordinates: the coordinate-space and label-geometry engine

    A shallow embedding of [src/types.ts], of the coordinate helpers and
    annotation updates of [src/App.tsx], of the pointer handlers and the
    label text of [src/components/PdfCanvas.tsx] and of the exporter
    [src/services/pdfModifier.ts].

    Numbers.  A TypeScript [number] is an IEEE double; it is modelled by an
    exact rational [Q], compared with [==].  Every constant of the code
    and of the examples (612, 792, 700.5, 1.5, ...) is exactly
    representable in both.  Page numbers are integer valued and are
    modelled by [Z]. *)

From Stdlib Require Import QArith Qminmax Qround Qabs Lqa ZArith String DecimalString.
From Stdlib Require Import Sorted Permutation.
From stdpp Require Import gmap strings list fin_maps.

Local Open Scope Q_scope.

(** ** The JavaScript primitives the code relies on *)

Module Js.

(** [a > b] on numbers. *)
Definition gt (a b : Q) : bool := negb (Qle_bool a b).

(** [a < b] on numbers. *)
Definition lt (a b : Q) : bool := gt b a.

(** [Math.max], [Math.min], [Math.abs]. *)
Definition Math_max (a b : Q) : Q := Qmax a b.
Definition Math_min (a b : Q) : Q := Qmin a b.
Definition Math_abs (a : Q) : Q := Qabs a.

(** [Math.round]: the nearest integer, a tie going up. *)
Definition Math_round (a : Q) : Z := Qfloor (a + (1 # 2)).

(** The text a template literal gives an integer valued number (decimal
    digits, a leading minus sign), as JavaScript prints every integer of
    magnitude below 10^21. *)
Definition toString (n : Z) : string := NilZero.string_of_int (Z.to_int n).

End Js.

(** ** [src/types.ts] *)

Record AnnotationPoint : Type := mkAnnotationPoint {
  id : string;
  pageIndex : Z;
  x : Q;
  y : Q;
  displayX : Q;
  displayY : Q
}.

Record PageDimensions : Type := mkPageDimensions {
  width : Q;
  height : Q
}.

Inductive CoordinateOrigin : Type :=
  | BOTTOM_LEFT
  | TOP_LEFT
  | TOP_RIGHT
  | BOTTOM_RIGHT.

(** A plain [{x, y}] object. *)
Record Coords : Type := mkCoords { cx : Q; cy : Q }.

(** ** The four-origin table of the specification

    Written from the table of the specification, to be compared with the
    three places where the code performs the conversion. *)

Definition canonicalToUserFrame_spec
    (origin : CoordinateOrigin) (d : PageDimensions) (p : Coords) : Coords :=
  match origin with
  | BOTTOM_LEFT => {| cx := cx p; cy := cy p |}
  | TOP_LEFT => {| cx := cx p; cy := height d - cy p |}
  | TOP_RIGHT => {| cx := width d - cx p; cy := height d - cy p |}
  | BOTTOM_RIGHT => {| cx := width d - cx p; cy := cy p |}
  end.

(** ** [src/components/PdfCanvas.tsx] *)

Module PdfCanvas.

(** The fields of a mouse event and of a bounding rectangle that the
    handlers read. *)
Record MouseEvent : Type := mkMouseEvent { clientX : Q; clientY : Q }.

(** The [dragState] set by [handleAnnotationMouseDown]. *)
Record DragState : Type := mkDragState {
  dragId : string;
  startX : Q;
  startY : Q;
  initialPdfX : Q;
  initialPdfY : Q
}.

(** [handleAnnotationMouseDown]: the drag state a press on [ann] sets,
    none while panning. *)
Definition handleAnnotationMouseDown
    (isPanning : bool) (e : MouseEvent) (ann : AnnotationPoint) : option DragState :=
  if isPanning then None
  else Some {| dragId := id ann; startX := clientX e; startY := clientY e;
               initialPdfX := x ann; initialPdfY := y ann |}.

(** [handleWindowMouseMove], with the props and state it closes over as
    arguments; [onUpdateAnnotationPosition] is the callback prop.  The
    property [scale] stays within 0.5 and 3, so the division is by a
    number that is not zero. *)
Definition handleWindowMouseMove {R : Type}
    (dragState : DragState) (scale : Q) (pageDimensions : option PageDimensions)
    (onUpdateAnnotationPosition : string -> Q -> Q -> R)
    (e : MouseEvent) : R :=
  let deltaX := clientX e - startX dragState in
  let deltaY := clientY e - startY dragState in
  let pdfDeltaX := deltaX / scale in
  let pdfDeltaY := - (deltaY / scale) in
  let newX := initialPdfX dragState + pdfDeltaX in
  let newY := initialPdfY dragState + pdfDeltaY in
  let '(newX, newY) :=
    match pageDimensions with
    | Some pageDimensions =>
        (Js.Math_max 0 (Js.Math_min newX (width pageDimensions)),
         Js.Math_max 0 (Js.Math_min newY (height pageDimensions)))
    | None => (newX, newY)
    end in
  onUpdateAnnotationPosition (dragId dragState) newX newY.


(** The template literal [`x:${Math.round(x)}, y:${Math.round(y)}`]. *)
Definition labelTemplate (x y : Q) : string :=
  ("x:" ++ Js.toString (Js.Math_round x) ++ ", y:" ++ Js.toString (Js.Math_round y))%string.

(** The coordinates [getLabelText] prints. *)
Definition getLabelCoords
    (origin : CoordinateOrigin) (pageDimensions : option PageDimensions)
    (ann : AnnotationPoint) : Coords :=
  match pageDimensions with
  | None => {| cx := x ann; cy := y ann |}
  | Some pageDimensions =>
      match origin with
      | TOP_LEFT => {| cx := x ann; cy := height pageDimensions - y ann |}
      | TOP_RIGHT =>
          {| cx := width pageDimensions - x ann; cy := height pageDimensions - y ann |}
      | BOTTOM_RIGHT => {| cx := width pageDimensions - x ann; cy := y ann |}
      | BOTTOM_LEFT => {| cx := x ann; cy := y ann |}
      end
  end.

(** [getLabelText]. *)
Definition getLabelText
    (origin : CoordinateOrigin) (pageDimensions : option PageDimensions)
    (ann : AnnotationPoint) : string :=
  let c := getLabelCoords origin pageDimensions ann in
  labelTemplate (cx c) (cy c).

(** [pageAnnotations] (line 51): the annotations the canvas shows, those
    of the page on display. *)
Definition pageAnnotations
    (pageNumber : Z) (annotations : list AnnotationPoint) : list AnnotationPoint :=
  List.filter (fun a => Z.eqb (pageIndex a) pageNumber) annotations.


(** The CSS properties [getLabelPositionStyle] may set. *)
Record CSSProperties : Type := mkCSSProperties {
  cssLeft : option string;
  cssRight : option string;
  cssTop : option string;
  cssBottom : option string
}.

(** [getLabelPositionStyle]: where the label of the live view is anchored
    relative to its dot. *)
Definition getLabelPositionStyle
    (pageDimensions : option PageDimensions) (ann : AnnotationPoint) : CSSProperties :=
  let defaultStyle :=
    {| cssLeft := Some "4px"%string; cssRight := None;
       cssTop := None; cssBottom := Some "4px"%string |} in
  match pageDimensions with
  | None => defaultStyle
  | Some pageDimensions =>
      let ESTIMATED_WIDTH := 110 in
      let ESTIMATED_HEIGHT := 30 in
      let isNearTop := Js.lt (displayY ann) ESTIMATED_HEIGHT in
      let isNearRight := Js.gt (displayX ann + ESTIMATED_WIDTH) (width pageDimensions) in
      {| cssLeft := if isNearRight then None else Some "4px"%string;
         cssRight := if isNearRight then Some "4px"%string else None;
         cssTop := if isNearTop then Some "4px"%string else None;
         cssBottom := if isNearTop then None else Some "4px"%string |}
  end.

End PdfCanvas.

(** ** [src/services/pdfModifier.ts] *)

Module PdfModifier.

(** *** The part of pdf-lib the exporter uses

    A loaded document is the list of its pages; a page has a size and
    the content drawn on it so far.  Each draw call appends one
    operation to the content of its page. *)

Record Color : Type := rgb { red : Q; green : Q; blue : Q }.

Inductive DrawOp : Type :=
  | Circle (x y size : Q) (color : Color) (borderWidth : Q)
  | Rectangle (x y width height : Q) (color : Color)
  | Text (text : string) (x y size : Q) (color : Color).

Record PDFPage : Type := mkPDFPage {
  getSize : PageDimensions;
  content : list DrawOp
}.

Definition drawCircle (x y size : Q) (color : Color) (borderWidth : Q)
    (page : PDFPage) : PDFPage :=
  {| getSize := getSize page;
     content := content page ++ [Circle x y size color borderWidth] |}.

Definition drawRectangle (x y width height : Q) (color : Color)
    (page : PDFPage) : PDFPage :=
  {| getSize := getSize page;
     content := content page ++ [Rectangle x y width height color] |}.

Definition drawText (text : string) (x y size : Q) (color : Color)
    (page : PDFPage) : PDFPage :=
  {| getSize := getSize page;
     content := content page ++ [Text text x y size color] |}.

(** The metrics of an embedded font. *)
Record PDFFont : Type := mkPDFFont {
  widthOfTextAtSize : string -> Q -> Q;
  heightAtSize : Q -> Q
}.

(** A call either returns or throws. *)
Inductive Result (A : Type) : Type :=
  | Ok (a : A)
  | Throw (error : string).
Arguments Ok {A} a.
Arguments Throw {A} error.

(** The calls that can fail: parsing the source bytes, embedding the
    font, serialising the document. *)
Record PdfLib : Type := mkPdfLib {
  load : list Byte.byte -> Result (list PDFPage);
  embedFont : list PDFPage -> Result PDFFont;
  save : list PDFPage -> Result (list Byte.byte)
}.

(** A file handed to the browser for download. *)
Record Download : Type := mkDownload {
  blob : list Byte.byte;
  download : string
}.

(** *** Computations that throw and that trigger downloads

    The state is the list of the downloads triggered so far; it
    survives a throw. *)
Definition M (A : Type) : Type := list Download -> Result A * list Download.

Definition bind {A B : Type} (m : M A) (k : A -> M B) : M B :=
  fun w =>
    match m w with
    | (Ok a, w') => k a w'
    | (Throw e, w') => (Throw e, w')
    end.

Definition call {A : Type} (r : Result A) : M A := fun w => (r, w).

Definition throw {A : Type} (error : string) : M A := fun w => (Throw error, w).

Definition try_catch {A : Type} (body : M A) (handler : string -> M A) : M A :=
  fun w =>
    match body w with
    | (Ok a, w') => (Ok a, w')
    | (Throw e, w') => handler e w'
    end.

(** [link.click()] on a link to [blob] with the given [download] name. *)
Definition click (blob : list Byte.byte) (download : string) : M unit :=
  fun w => (Ok tt, w ++ [{| blob := blob; download := download |}]).

Notation "'let!' x ':=' m 'in' k" := (bind m (fun x => k))
  (at level 10, x name, m at level 100, k at level 200).

(** *** The constants for styling (lines 34-39) *)

Definition DOT_RADIUS : Q := 3.
Definition CORNER_RADIUS : Q := 3.
Definition TEXT_SIZE : Q := 8.
Definition PADDING : Q := 2.
Definition RED_COLOR : Color := rgb 0.8 0.1 0.1.
Definition WHITE_COLOR : Color := rgb 1 1 1.

(** *** The body of [pageAnns.forEach], step by step *)

(** Step 1 (lines 42-63): the coordinates the label prints. *)
Definition displayCoords
    (origin : CoordinateOrigin) (width height : Q) (ann : AnnotationPoint) : Coords :=
  match origin with
  | TOP_LEFT => {| cx := x ann; cy := height - y ann |}
  | TOP_RIGHT => {| cx := width - x ann; cy := height - y ann |}
  | BOTTOM_RIGHT => {| cx := width - x ann; cy := y ann |}
  | BOTTOM_LEFT => {| cx := x ann; cy := y ann |}
  end.

(** Step 3 (line 75): the label text. *)
Definition labelText
    (origin : CoordinateOrigin) (width height : Q) (ann : AnnotationPoint) : string :=
  let c := displayCoords origin width height ann in
  ("x:" ++ Js.toString (Js.Math_round (cx c)) ++ ", y:"
        ++ Js.toString (Js.Math_round (cy c)))%string.

(** Step 4 (lines 86-100): the corner of the label box, for a dot of
    radius [r] at [(x, y)]; the exporter calls it with [DOT_RADIUS]. *)
Definition boxPosition (r x y boxWidth boxHeight width height : Q) : Coords :=
  let boxX := x + r in
  let boxY := y + r in
  let boxX := if Js.gt (boxX + boxWidth) width then x - r - boxWidth else boxX in
  let boxY := if Js.gt (boxY + boxHeight) height then y - r - boxHeight else boxY in
  {| cx := boxX; cy := boxY |}.

(** The whole body: the operations appended to [page] for [ann]. *)
Definition drawAnnotation
    (helveticaFont : PDFFont) (origin : CoordinateOrigin)
    (page : PDFPage) (ann : AnnotationPoint) : PDFPage :=
  let width := width (getSize page) in
  let height := height (getSize page) in
  let page := drawCircle (x ann) (y ann) DOT_RADIUS RED_COLOR 0 page in
  let text := labelText origin width height ann in
  let textWidth := widthOfTextAtSize helveticaFont text TEXT_SIZE in
  let textHeight := heightAtSize helveticaFont TEXT_SIZE in
  let boxWidth := textWidth + PADDING * 2 in
  let boxHeight := textHeight + PADDING * 2 in
  let box := boxPosition DOT_RADIUS (x ann) (y ann) boxWidth boxHeight width height in
  let boxX := cx box in
  let boxY := cy box in
  let page :=
    drawRectangle boxX (boxY + CORNER_RADIUS)
      boxWidth (boxHeight - 2 * CORNER_RADIUS) RED_COLOR page in
  let page :=
    drawRectangle (boxX + CORNER_RADIUS) boxY
      (boxWidth - 2 * CORNER_RADIUS) boxHeight RED_COLOR page in
  let page :=
    drawCircle (boxX + CORNER_RADIUS) (boxY + CORNER_RADIUS)
      CORNER_RADIUS RED_COLOR 0 page in
  let page :=
    drawCircle (boxX + boxWidth - CORNER_RADIUS) (boxY + CORNER_RADIUS)
      CORNER_RADIUS RED_COLOR 0 page in
  let page :=
    drawCircle (boxX + boxWidth - CORNER_RADIUS) (boxY + boxHeight - CORNER_RADIUS)
      CORNER_RADIUS RED_COLOR 0 page in
  let page :=
    drawCircle (boxX + CORNER_RADIUS) (boxY + boxHeight - CORNER_RADIUS)
      CORNER_RADIUS RED_COLOR 0 page in
  drawText text (boxX + PADDING) (boxY + PADDING + 1.5) TEXT_SIZE WHITE_COLOR page.

(** *** Grouping and the loop over the pages *)

(** Lines 16-22: [annotationsByPage]. *)
Definition groupByPage (annotations : list AnnotationPoint) : gmap Z (list AnnotationPoint) :=
  foldl
    (fun annotationsByPage ann =>
       let annotationsByPage :=
         match annotationsByPage !! pageIndex ann with
         | None => <[pageIndex ann := []]> annotationsByPage
         | Some _ => annotationsByPage
         end in
       <[pageIndex ann := default [] (annotationsByPage !! pageIndex ann) ++ [ann]]>
         annotationsByPage)
    ∅ annotations.

(** Lines 26-134: the callback of [Object.keys(annotationsByPage).forEach]
    for the key [key], whose list is [pageAnns]. *)
Definition processPage
    (helveticaFont : PDFFont) (origin : CoordinateOrigin)
    (pages : list PDFPage) (entry : Z * list AnnotationPoint) : list PDFPage :=
  let '(key, pageAnns) := entry in
  let pageIndex := (key - 1)%Z in
  if ((0 <=? pageIndex)%Z && (pageIndex <? Z.of_nat (length pages))%Z)%bool then
    match pages !! Z.to_nat pageIndex with
    | Some page =>
        <[Z.to_nat pageIndex := foldl (drawAnnotation helveticaFont origin) page pageAnns]>
          pages
    | None => pages
    end
  else pages.

(** Lines 25-135: every key of [annotationsByPage] with its list.  A key
    touches its own page only, so the order in which [Object.keys] lists
    the keys has no effect on the document. *)
Definition drawAll
    (helveticaFont : PDFFont) (origin : CoordinateOrigin)
    (annotations : list AnnotationPoint) (pages : list PDFPage) : list PDFPage :=
  foldl (processPage helveticaFont origin) pages (map_to_list (groupByPage annotations)).

(** [saveAnnotatedPdf]. *)
Definition saveAnnotatedPdf
    (lib : PdfLib) (originalPdfBytes : list Byte.byte)
    (annotations : list AnnotationPoint) (fileName : string)
    (origin : CoordinateOrigin) : M unit :=
  try_catch
    (let! pages := call (load lib originalPdfBytes) in
     let! helveticaFont := call (embedFont lib pages) in
     let pages := drawAll helveticaFont origin annotations pages in
     let! modifiedPdfBytes := call (save lib pages) in
     click modifiedPdfBytes ("annotated_" ++ fileName)%string)
    (fun error => throw "Failed to save annotated PDF.").

End PdfModifier.

(** ** [src/App.tsx] *)

Module App.

(** [getDisplayCoordinates], with the component state it closes over
    ([pageDimensions], [origin]) as arguments. *)
Definition getDisplayCoordinates
    (pageDimensions : gmap Z PageDimensions) (origin : CoordinateOrigin)
    (ann : AnnotationPoint) : Coords :=
  match pageDimensions !! pageIndex ann with
  | None => {| cx := x ann; cy := y ann |}
  | Some dims =>
      match origin with
      | TOP_LEFT => {| cx := x ann; cy := height dims - y ann |}
      | TOP_RIGHT => {| cx := width dims - x ann; cy := height dims - y ann |}
      | BOTTOM_RIGHT => {| cx := width dims - x ann; cy := y ann |}
      | _ => {| cx := x ann; cy := y ann |}
      end
  end.

(** The function mapped over the list by [updateAnnotationFromDisplay]. *)
Definition updateOneFromDisplay
    (pageDimensions : gmap Z PageDimensions) (origin : CoordinateOrigin)
    (target : string) (newX newY : option Q)
    (ann : AnnotationPoint) : AnnotationPoint :=
  if negb (String.eqb (id ann) target) then ann else
  match pageDimensions !! pageIndex ann with
  | None => ann
  | Some dims =>
      let canonicalX :=
        match newX with
        | Some newX =>
            match origin with
            | TOP_RIGHT | BOTTOM_RIGHT => width dims - newX
            | _ => newX
            end
        | None => x ann
        end in
      let canonicalY :=
        match newY with
        | Some newY =>
            match origin with
            | TOP_LEFT | TOP_RIGHT => height dims - newY
            | _ => newY
            end
        | None => y ann
        end in
      let cssDisplayY := height dims - canonicalY in
      let cssDisplayX := canonicalX in
      {| id := id ann; pageIndex := pageIndex ann;
         x := canonicalX; y := canonicalY;
         displayX := cssDisplayX; displayY := cssDisplayY |}
  end.

(** [updateAnnotationFromDisplay]: the state update [prev => prev.map(..)]. *)
Definition updateAnnotationFromDisplay
    (pageDimensions : gmap Z PageDimensions) (origin : CoordinateOrigin)
    (target : string) (newX newY : option Q)
    (prev : list AnnotationPoint) : list AnnotationPoint :=
  map (updateOneFromDisplay pageDimensions origin target newX newY) prev.

(** The function mapped over the list by [handleUpdateAnnotationPosition]. *)
Definition updateOnePosition
    (pageDimensions : gmap Z PageDimensions)
    (target : string) (newX newY : Q)
    (ann : AnnotationPoint) : AnnotationPoint :=
  if negb (String.eqb (id ann) target) then ann else
  let dims := pageDimensions !! pageIndex ann in
  let displayX' := newX in
  let displayY' :=
    match dims with
    | Some dims => height dims - newY
    | None => displayY ann
    end in
  {| id := id ann; pageIndex := pageIndex ann;
     x := newX; y := newY;
     displayX := displayX'; displayY := displayY' |}.

(** [handleUpdateAnnotationPosition]. *)
Definition handleUpdateAnnotationPosition
    (pageDimensions : gmap Z PageDimensions)
    (target : string) (newX newY : Q)
    (prev : list AnnotationPoint) : list AnnotationPoint :=
  map (updateOnePosition pageDimensions target newX newY) prev.

(** [handleAddAnnotation], the list part. *)
Definition handleAddAnnotation
    (ann : AnnotationPoint) (prev : list AnnotationPoint) : list AnnotationPoint :=
  prev ++ [ann].

(** The comparator given to [sort] by [sortedAnnotations].  A negative
    result puts [a] first, a positive one puts [b] first. *)
Definition compareAnnotations (a b : AnnotationPoint) : Q :=
  if negb (Z.eqb (pageIndex a) (pageIndex b))
  then inject_Z (pageIndex a - pageIndex b)
  else
    let yDiff := y b - y a in
    if Js.gt (Js.Math_abs yDiff) 2 then yDiff
    else x a - x b.

(** [Array.prototype.sort] with a comparator, as a stable insertion
    sort: an element moves past a later one only when it compares
    strictly after it.  ECMAScript fixes the result of [sort] when the
    comparator orders the elements of the array consistently, and every
    engine then returns what this sort returns; otherwise the order is
    left to the engine. *)
Fixpoint insertSorted {A : Type} (cmp : A -> A -> Q) (a : A) (l : list A) : list A :=
  match l with
  | [] => [a]
  | b :: l' => if Js.gt (cmp a b) 0 then b :: insertSorted cmp a l' else a :: b :: l'
  end.

Definition sort {A : Type} (cmp : A -> A -> Q) (l : list A) : list A :=
  foldr (insertSorted cmp) [] l.

(** [sortedAnnotations]. *)
Definition sortedAnnotations (annotations : list AnnotationPoint) : list AnnotationPoint :=
  sort compareAnnotations annotations.

(** The [mousemove] of a drag as [App] wires it (lines 636-649): the
    canvas gets the dimensions of the page on display and
    [handleUpdateAnnotationPosition] as its callback. *)
Definition dragUpdate
    (pageDimensions : gmap Z PageDimensions) (pageNumber : Z) (scale : Q)
    (dragState : PdfCanvas.DragState) (e : PdfCanvas.MouseEvent)
    (prev : list AnnotationPoint) : list AnnotationPoint :=
  PdfCanvas.handleWindowMouseMove dragState scale (pageDimensions !! pageNumber)
    (fun target newX newY =>
       handleUpdateAnnotationPosition pageDimensions target newX newY prev)
    e.

(** [handleSave]: the message left in the [error] state, and the
    downloads triggered. *)
Definition handleSave
    (lib : PdfModifier.PdfLib) (fileData : option (list Byte.byte))
    (file : option string) (annotations : list AnnotationPoint)
    (origin : CoordinateOrigin) (error : option string)
    (w : list PdfModifier.Download) : option string * list PdfModifier.Download :=
  match fileData, file with
  | Some fileData, Some name =>
      match PdfModifier.saveAnnotatedPdf lib fileData annotations name origin w with
      | (PdfModifier.Ok _, w') => (error, w')
      | (PdfModifier.Throw _, w') =>
          (Some "Failed to save the PDF. Please try again."%string, w')
      end
  | _, _ => (error, w)
  end.

(** [handleDeleteAnnotation], the list part. *)
Definition handleDeleteAnnotation
    (target : string) (prev : list AnnotationPoint) : list AnnotationPoint :=
  List.filter (fun a => negb (String.eqb (id a) target)) prev.

(** [handleDeleteAnnotation], the selection part:
    [if (selectedId === id) setSelectedId(null)]. *)
Definition selectedAfterDelete (selectedId : option string) (target : string) : option string :=
  match selectedId with
  | Some selected => if String.eqb selected target then None else Some selected
  | None => None
  end.

(** [changePage]: the state update of [pageNumber]. *)
Definition changePage (numPages offset prev : Z) : Z :=
  Z.min (Z.max 1 (prev + offset)) numPages.

(** The view state: zoom, pan and the drag that pans the canvas. *)
Record Viewport : Type := mkViewport {
  scale : Q;
  pan : Coords;
  isDraggingCanvas : bool;
  dragStartRef : option Coords
}.

(** The view of a file just opened (lines 30, 41-45, 124-125). *)
Definition initialViewport : Viewport :=
  {| scale := 1.0; pan := {| cx := 0; cy := 0 |};
     isDraggingCanvas := false; dragStartRef := None |}.

(** The zoom buttons (lines 526 and 534). *)
Definition zoomOut (v : Viewport) : Viewport :=
  {| scale := Js.Math_max 0.5 (scale v - 0.2); pan := pan v;
     isDraggingCanvas := isDraggingCanvas v; dragStartRef := dragStartRef v |}.

Definition zoomIn (v : Viewport) : Viewport :=
  {| scale := Js.Math_min 3.0 (scale v + 0.2); pan := pan v;
     isDraggingCanvas := isDraggingCanvas v; dragStartRef := dragStartRef v |}.

(** [handleResetView]. *)
Definition handleResetView (v : Viewport) : Viewport :=
  {| scale := 1.0; pan := {| cx := 0; cy := 0 |};
     isDraggingCanvas := isDraggingCanvas v; dragStartRef := dragStartRef v |}.

(** [handleWheel]: a wheel event pans, unless Ctrl or Meta is held. *)
Definition handleWheel (ctrlOrMeta : bool) (deltaX deltaY : Q) (v : Viewport) : Viewport :=
  if ctrlOrMeta then v
  else {| scale := scale v;
          pan := {| cx := cx (pan v) - deltaX; cy := cy (pan v) - deltaY |};
          isDraggingCanvas := isDraggingCanvas v; dragStartRef := dragStartRef v |}.

(** [handleCanvasMouseDown], the view part: a press starts a pan when
    Space is held or the button is the middle one. *)
Definition handleCanvasMouseDown
    (isSpacePressed : bool) (button : Z) (e : PdfCanvas.MouseEvent) (v : Viewport) : Viewport :=
  if (isSpacePressed || (button =? 1)%Z)%bool
  then {| scale := scale v; pan := pan v; isDraggingCanvas := true;
          dragStartRef := Some {| cx := PdfCanvas.clientX e; cy := PdfCanvas.clientY e |} |}
  else v.

(** [handleCanvasMouseMove]. *)
Definition handleCanvasMouseMove (e : PdfCanvas.MouseEvent) (v : Viewport) : Viewport :=
  if isDraggingCanvas v then
    match dragStartRef v with
    | Some start =>
        let deltaX := PdfCanvas.clientX e - cx start in
        let deltaY := PdfCanvas.clientY e - cy start in
        {| scale := scale v;
           pan := {| cx := cx (pan v) + deltaX; cy := cy (pan v) + deltaY |};
           isDraggingCanvas := true;
           dragStartRef := Some {| cx := PdfCanvas.clientX e; cy := PdfCanvas.clientY e |} |}
    | None => v
    end
  else v.

(** [handleCanvasMouseUp]. *)
Definition handleCanvasMouseUp (v : Viewport) : Viewport :=
  {| scale := scale v; pan := pan v; isDraggingCanvas := false; dragStartRef := None |}.

(** [handleKeyUp] for the Space key, the view part: the pan in progress
    ends. *)
Definition handleSpaceKeyUp (v : Viewport) : Viewport :=
  {| scale := scale v; pan := pan v; isDraggingCanvas := false;
     dragStartRef := dragStartRef v |}.

(** The events that change the view, and the handler of each. *)
Inductive ViewEvent : Type :=
  | ZoomOutClick
  | ZoomInClick
  | ResetClick
  | Wheel (ctrlOrMeta : bool) (deltaX deltaY : Q)
  | CanvasMouseDown (isSpacePressed : bool) (button : Z) (e : PdfCanvas.MouseEvent)
  | CanvasMouseMove (e : PdfCanvas.MouseEvent)
  | CanvasMouseUp
  | SpaceKeyUp.

Definition handleViewEvent (v : Viewport) (event : ViewEvent) : Viewport :=
  match event with
  | ZoomOutClick => zoomOut v
  | ZoomInClick => zoomIn v
  | ResetClick => handleResetView v
  | Wheel ctrlOrMeta deltaX deltaY => handleWheel ctrlOrMeta deltaX deltaY v
  | CanvasMouseDown isSpacePressed button e => handleCanvasMouseDown isSpacePressed button e v
  | CanvasMouseMove e => handleCanvasMouseMove e v
  | CanvasMouseUp => handleCanvasMouseUp v
  | SpaceKeyUp => handleSpaceKeyUp v
  end.

(** The loop of [onFileChange] that records the size of every page
    (lines 136-139): [pages.forEach((p, idx) => dims[idx + 1] = ...)],
    from the index [idx] on. *)
Fixpoint forEachPage
    (idx : nat) (pages : list PdfModifier.PDFPage)
    (dims : gmap Z PageDimensions) : gmap Z PageDimensions :=
  match pages with
  | [] => dims
  | p :: pages =>
      forEachPage (S idx) pages
        (<[(Z.of_nat idx + 1)%Z :=
             {| width := width (PdfModifier.getSize p);
                height := height (PdfModifier.getSize p) |}]> dims)
  end.

(** The [pageDimensions] that [reader.onload] leaves (lines 128-144):
    those of the pages when the bytes parse, none when they do not. *)
Definition preloadDimensions
    (lib : PdfModifier.PdfLib) (buffer : list Byte.byte) : gmap Z PageDimensions :=
  match PdfModifier.load lib buffer with
  | PdfModifier.Ok pages => forEachPage 0 pages ∅
  | PdfModifier.Throw _ => ∅
  end.

(** [showPageHeader] (line 428), for the entry [ann] at index [idx] of
    the sorted list.  The index comes from mapping over that list, so the
    entry before it exists whenever [idx] is not 0. *)
Definition showPageHeader
    (sortedAnnotations : list AnnotationPoint) (idx : nat) (ann : AnnotationPoint) : bool :=
  ((idx =? 0)%nat ||
   match sortedAnnotations !! (idx - 1)%nat with
   | Some before => negb (Z.eqb (pageIndex ann) (pageIndex before))
   | None => false
   end)%bool.

End App.

(** ** What the exporter draws for one annotation, as the specification
    words it

    Written from the specification: the marker disc at the canonical
    position, then the label box at the corner the flip rule gives for
    the measured text plus padding, made of two rectangles and four corner
    discs, then the text, which prints the rounded user-frame coordinates
    of the four-origin table. *)

Definition labelText_spec
    (origin : CoordinateOrigin) (d : PageDimensions) (ann : AnnotationPoint) : string :=
  let u := canonicalToUserFrame_spec origin d {| cx := x ann; cy := y ann |} in
  ("x:" ++ Js.toString (Js.Math_round (cx u)) ++ ", y:"
        ++ Js.toString (Js.Math_round (cy u)))%string.

Definition annotationDrawing_spec
    (font : PdfModifier.PDFFont) (origin : CoordinateOrigin)
    (d : PageDimensions) (ann : AnnotationPoint) : list PdfModifier.DrawOp :=
  let r := PdfModifier.DOT_RADIUS in
  let c := PdfModifier.CORNER_RADIUS in
  let red := PdfModifier.RED_COLOR in
  let text := labelText_spec origin d ann in
  let boxW :=
    PdfModifier.widthOfTextAtSize font text PdfModifier.TEXT_SIZE + PdfModifier.PADDING * 2 in
  let boxH := PdfModifier.heightAtSize font PdfModifier.TEXT_SIZE + PdfModifier.PADDING * 2 in
  let box := PdfModifier.boxPosition r (x ann) (y ann) boxW boxH (width d) (height d) in
  [ PdfModifier.Circle (x ann) (y ann) r red 0;
    PdfModifier.Rectangle (cx box) (cy box + c) boxW (boxH - 2 * c) red;
    PdfModifier.Rectangle (cx box + c) (cy box) (boxW - 2 * c) boxH red;
    PdfModifier.Circle (cx box + c) (cy box + c) c red 0;
    PdfModifier.Circle (cx box + boxW - c) (cy box + c) c red 0;
    PdfModifier.Circle (cx box + boxW - c) (cy box + boxH - c) c red 0;
    PdfModifier.Circle (cx box + c) (cy box + boxH - c) c red 0;
    PdfModifier.Text text (cx box + PdfModifier.PADDING)
      (cy box + PdfModifier.PADDING + 1.5) PdfModifier.TEXT_SIZE PdfModifier.WHITE_COLOR ].

(** The annotations of page [k], in the order of the list. *)
Definition pageAnnotations (k : Z) (annotations : list AnnotationPoint) : list AnnotationPoint :=
  filter (fun ann => pageIndex ann = k) annotations.

(** ** Clamping, as the specification words it

    Written from the specification: a value below the interval becomes
    its lower end, a value above it its upper end, any other value is
    kept. *)

Definition clamp_spec (lo hi v : Q) : Q :=
  if Js.lt v lo then lo else if Js.gt v hi then hi else v.

(** ** The cache invariant of the specification

    Written from the specification: [displayX == x] and
    [displayY == pageHeight - y]. *)

Definition displayCacheInvariant (pageHeight : Q) (ann : AnnotationPoint) : Prop :=
  displayX ann == x ann /\ displayY ann == pageHeight - y ann.

(** ** The reading order of the specification

    Written from the specification: [a] is not after [b] when it is on an
    earlier page or, on the same page, when it is higher by more than the
    tolerance of 2 points or, within the tolerance, not further right. *)

Definition readingOrder_spec (a b : AnnotationPoint) : Prop :=
  (pageIndex a < pageIndex b)%Z \/
  (pageIndex a = pageIndex b /\
   ((2 < Qabs (y a - y b) /\ y b < y a) \/
    (Qabs (y a - y b) <= 2 /\ x a <= x b))).

(** ** Sample data: the examples of the specification *)

Definition letterPage : PageDimensions := {| width := 612; height := 792 |}.

Definition sampleAnnotation : AnnotationPoint :=
  {| id := "p1"; pageIndex := 1; x := 100; y := 700; displayX := 100; displayY := 92 |}.

(** A press on [sampleAnnotation] at screen position (200, 300), then a
    move to (90, 100): at scale 1 the drag aims at canonical (-10, 900). *)
Definition sampleDrag : PdfCanvas.DragState :=
  {| PdfCanvas.dragId := "p1"; PdfCanvas.startX := 200; PdfCanvas.startY := 300;
     PdfCanvas.initialPdfX := 100; PdfCanvas.initialPdfY := 700 |}.

Definition sampleMove : PdfCanvas.MouseEvent :=
  {| PdfCanvas.clientX := 90; PdfCanvas.clientY := 100 |}.


Definition sampleClick : PdfCanvas.MouseEvent :=
  {| PdfCanvas.clientX := 120; PdfCanvas.clientY := 122 |}.

(** The three points of the ordering example, all on page 1. *)
Definition pointA : AnnotationPoint :=
  {| id := "a"; pageIndex := 1; x := 50; y := 700; displayX := 50; displayY := 92 |}.
Definition pointB : AnnotationPoint :=
  {| id := "b"; pageIndex := 1; x := 10; y := 700.5; displayX := 10; displayY := 91.5 |}.
Definition pointC : AnnotationPoint :=
  {| id := "c"; pageIndex := 1; x := 5; y := 650; displayX := 5; displayY := 142 |}.

(** Three points in a staircase, each within the tolerance of the next. *)
Definition stepLow : AnnotationPoint :=
  {| id := "s1"; pageIndex := 1; x := 10; y := 700; displayX := 10; displayY := 92 |}.
Definition stepMid : AnnotationPoint :=
  {| id := "s2"; pageIndex := 1; x := 20; y := 701.5; displayX := 20; displayY := 90.5 |}.
Definition stepHigh : AnnotationPoint :=
  {| id := "s3"; pageIndex := 1; x := 30; y := 703; displayX := 30; displayY := 89 |}.

(** A document of one blank 612 x 792 page, a font whose glyphs are as
    wide as they are high, and a library that parses every input
    to that document and serialises a document to one byte per page. *)
Definition blankLetterPage : PdfModifier.PDFPage :=
  {| PdfModifier.getSize := letterPage; PdfModifier.content := [] |}.

Definition sampleFont : PdfModifier.PDFFont :=
  {| PdfModifier.widthOfTextAtSize :=
       fun text size => inject_Z (Z.of_nat (String.length text)) * size;
     PdfModifier.heightAtSize := fun size => size |}.

Definition sampleLib : PdfModifier.PdfLib :=
  {| PdfModifier.load := fun _ => PdfModifier.Ok [blankLetterPage];
     PdfModifier.embedFont := fun _ => PdfModifier.Ok sampleFont;
     PdfModifier.save := fun pages => PdfModifier.Ok (map (fun _ => Byte.x00) pages) |}.

(** Libraries that fail at one stage: the parse, the font, the
    serialisation. *)
Definition failingLoad : PdfModifier.PdfLib :=
  {| PdfModifier.load := fun _ => PdfModifier.Throw "No PDF header found";
     PdfModifier.embedFont := PdfModifier.embedFont sampleLib;
     PdfModifier.save := PdfModifier.save sampleLib |}.

Definition failingEmbed : PdfModifier.PdfLib :=
  {| PdfModifier.load := PdfModifier.load sampleLib;
     PdfModifier.embedFont := fun _ => PdfModifier.Throw "Cannot embed font";
     PdfModifier.save := PdfModifier.save sampleLib |}.

Definition failingSave : PdfModifier.PdfLib :=
  {| PdfModifier.load := PdfModifier.load sampleLib;
     PdfModifier.embedFont := PdfModifier.embedFont sampleLib;
     PdfModifier.save := fun _ => PdfModifier.Throw "Cannot serialise" |}.

(** An annotation of a page 2. *)
Definition strayAnnotation : AnnotationPoint :=
  {| id := "q"; pageIndex := 2; x := 100; y := 700; displayX := 100; displayY := 92 |}.

(** A document of two pages of different sizes, and a library that
    parses every input to it. *)
Definition twoPages : list PdfModifier.PDFPage :=
  [ blankLetterPage;
    {| PdfModifier.getSize := {| width := 842; height := 595 |};
       PdfModifier.content := [] |} ].

Definition twoPageLib : PdfModifier.PdfLib :=
  {| PdfModifier.load := fun _ => PdfModifier.Ok twoPages;
     PdfModifier.embedFont := fun _ => PdfModifier.Ok sampleFont;
     PdfModifier.save := fun pages => PdfModifier.Ok (map (fun _ => Byte.x00) pages) |}.

(** * Properties *)

(** ** Helper lemmas *)

(** Split the conjunctions of the goal, and nothing else. *)
Ltac split_all := repeat match goal with |- _ /\ _ => split end.

Lemma gt_true (a b : Q) : Js.gt a b = true <-> b < a.
Proof.
  unfold Js.gt. rewrite negb_true_iff, <- not_true_iff_false, Qle_bool_iff.
  split; [apply Qnot_le_lt | apply Qlt_not_le].
Qed.

Lemma gt_false (a b : Q) : Js.gt a b = false <-> a <= b.
Proof. unfold Js.gt. rewrite negb_false_iff. apply Qle_bool_iff. Qed.

Lemma lookup_map {A B : Type} (f : A -> B) (l : list A) (i : nat) (a : A) :
  l !! i = Some a -> map f l !! i = Some (f a).
Proof.
  revert i. induction l as [|b l IH]; intros [|i] H; simpl in *; try discriminate.
  - now inversion H.
  - now apply IH.
Qed.

Lemma id_matches (ann : AnnotationPoint) (target : string) :
  id ann = target -> negb (String.eqb (id ann) target) = false.
Proof. intros ->. now rewrite String.eqb_refl. Qed.

(** ** Coordinate conversions *)




(** C2.  The conversion from canonical to user frame is the four-origin
    table of the specification in each of the three places where the code
    performs it: the sidebar ([getDisplayCoordinates]), the label on the
    canvas ([getLabelText], given the dimensions of the page on display)
    and the exported label (steps 1 and 3 of the exporter, with the size
    of the page it draws on). *)
Theorem conversion_table
    (pageDimensions : gmap Z PageDimensions) (origin : CoordinateOrigin)
    (d : PageDimensions) (ann : AnnotationPoint)
    (Hd : pageDimensions !! pageIndex ann = Some d) :
  let u := canonicalToUserFrame_spec origin d {| cx := x ann; cy := y ann |} in
  App.getDisplayCoordinates pageDimensions origin ann = u /\
  PdfCanvas.getLabelCoords origin (pageDimensions !! pageIndex ann) ann = u /\
  PdfCanvas.getLabelText origin (pageDimensions !! pageIndex ann) ann
    = PdfCanvas.labelTemplate (cx u) (cy u) /\
  PdfModifier.displayCoords origin (width d) (height d) ann = u /\
  PdfModifier.labelText origin (width d) (height d) ann
    = PdfCanvas.labelTemplate (cx u) (cy u).
Proof.
  intros u. subst u.
  unfold App.getDisplayCoordinates, PdfCanvas.getLabelText, PdfCanvas.getLabelCoords,
    PdfModifier.labelText, PdfModifier.displayCoords, PdfCanvas.labelTemplate.
  rewrite Hd. destruct origin; simpl; repeat split; reflexivity.
Qed.

(** The concrete conversions of the specification: the point (100, 700)
    of a 612 x 792 page under the four origins, as numbers and as label
    text. *)
Lemma conversion_table_witness :
  let dims : gmap Z PageDimensions := {[ 1%Z := letterPage ]} in
  (App.getDisplayCoordinates dims TOP_LEFT sampleAnnotation = {| cx := 100; cy := 92 |} /\
   App.getDisplayCoordinates dims TOP_RIGHT sampleAnnotation = {| cx := 512; cy := 92 |} /\
   App.getDisplayCoordinates dims BOTTOM_RIGHT sampleAnnotation = {| cx := 512; cy := 700 |} /\
   App.getDisplayCoordinates dims BOTTOM_LEFT sampleAnnotation = {| cx := 100; cy := 700 |}) /\
  (PdfCanvas.getLabelText TOP_LEFT (dims !! 1%Z) sampleAnnotation = "x:100, y:92"%string /\
   PdfCanvas.getLabelText TOP_RIGHT (dims !! 1%Z) sampleAnnotation = "x:512, y:92"%string /\
   PdfCanvas.getLabelText BOTTOM_RIGHT (dims !! 1%Z) sampleAnnotation = "x:512, y:700"%string /\
   PdfCanvas.getLabelText BOTTOM_LEFT (dims !! 1%Z) sampleAnnotation = "x:100, y:700"%string) /\
  (PdfModifier.labelText TOP_LEFT 612 792 sampleAnnotation = "x:100, y:92"%string /\
   PdfModifier.labelText TOP_RIGHT 612 792 sampleAnnotation = "x:512, y:92"%string /\
   PdfModifier.labelText BOTTOM_RIGHT 612 792 sampleAnnotation = "x:512, y:700"%string /\
   PdfModifier.labelText BOTTOM_LEFT 612 792 sampleAnnotation = "x:100, y:700"%string).
Proof.
  intros dims.
  assert (Hd : dims !! pageIndex sampleAnnotation = Some letterPage) by reflexivity.
  pose proof (conversion_table dims TOP_LEFT letterPage sampleAnnotation Hd) as (A1 & _ & B1 & _ & C1).
  pose proof (conversion_table dims TOP_RIGHT letterPage sampleAnnotation Hd) as (A2 & _ & B2 & _ & C2).
  pose proof (conversion_table dims BOTTOM_RIGHT letterPage sampleAnnotation Hd) as (A3 & _ & B3 & _ & C3).
  pose proof (conversion_table dims BOTTOM_LEFT letterPage sampleAnnotation Hd) as (A4 & _ & B4 & _ & C4).
  split_all.
  - rewrite A1. vm_compute. reflexivity.
  - rewrite A2. vm_compute. reflexivity.
  - rewrite A3. vm_compute. reflexivity.
  - rewrite A4. vm_compute. reflexivity.
  - etransitivity; [exact B1 | vm_compute; reflexivity].
  - etransitivity; [exact B2 | vm_compute; reflexivity].
  - etransitivity; [exact B3 | vm_compute; reflexivity].
  - etransitivity; [exact B4 | vm_compute; reflexivity].
  - etransitivity; [exact C1 | vm_compute; reflexivity].
  - etransitivity; [exact C2 | vm_compute; reflexivity].
  - etransitivity; [exact C3 | vm_compute; reflexivity].
  - etransitivity; [exact C4 | vm_compute; reflexivity].
Defined.

(** C7.  With no dimensions known for the page of an annotation, the
    sidebar shows its canonical coordinates, the label on the canvas
    prints them, and a field edit returns the annotation as it is, its
    canonical position unchanged.  The three functions are total: there
    is no input on which they throw. *)
Theorem unknown_dimensions_fallback
    (pageDimensions : gmap Z PageDimensions) (origin : CoordinateOrigin)
    (ann : AnnotationPoint)
    (Hd : pageDimensions !! pageIndex ann = None) :
  App.getDisplayCoordinates pageDimensions origin ann = {| cx := x ann; cy := y ann |} /\
  PdfCanvas.getLabelCoords origin (pageDimensions !! pageIndex ann) ann
    = {| cx := x ann; cy := y ann |} /\
  PdfCanvas.getLabelText origin (pageDimensions !! pageIndex ann) ann
    = PdfCanvas.labelTemplate (x ann) (y ann) /\
  (forall (target : string) (newX newY : option Q),
     App.updateOneFromDisplay pageDimensions origin target newX newY ann = ann) /\
  (forall (newX newY : option Q) (prev : list AnnotationPoint) (i : nat),
     prev !! i = Some ann ->
     App.updateAnnotationFromDisplay pageDimensions origin (id ann) newX newY prev !! i
       = Some ann).
Proof.
  assert (Hone : forall target newX newY,
             App.updateOneFromDisplay pageDimensions origin target newX newY ann = ann).
  { intros. unfold App.updateOneFromDisplay. rewrite Hd.
    now destruct (negb (String.eqb (id ann) target)). }
  unfold App.getDisplayCoordinates, PdfCanvas.getLabelText, PdfCanvas.getLabelCoords.
  rewrite Hd. repeat split; try reflexivity; try exact Hone.
  intros newX newY prev i Hi. unfold App.updateAnnotationFromDisplay.
  rewrite (lookup_map _ _ _ _ Hi). now rewrite Hone.
Qed.

Lemma unknown_dimensions_fallback_witness :
  App.getDisplayCoordinates ∅ TOP_RIGHT sampleAnnotation = {| cx := 100; cy := 700 |} /\
  PdfCanvas.getLabelText TOP_RIGHT ((∅ : gmap Z PageDimensions) !! 1%Z) sampleAnnotation
    = "x:100, y:700"%string /\
  App.updateAnnotationFromDisplay ∅ TOP_RIGHT "p1" (Some 5) None [sampleAnnotation]
    = [sampleAnnotation].
Proof.
  assert (Hd : (∅ : gmap Z PageDimensions) !! pageIndex sampleAnnotation = None)
    by reflexivity.
  pose proof (unknown_dimensions_fallback ∅ TOP_RIGHT sampleAnnotation Hd)
    as (A & _ & B & C & _).
  split; [exact A | split].
  - etransitivity; [exact B | vm_compute; reflexivity].
  - simpl. now rewrite C.
Defined.

(** ** Label placement *)

(** C3.  The corner of the label box starts at [(x + r, y + r)] and each
    axis flips on its own test, made once on the starting corner: the box
    goes to [x - r - boxW] exactly when [x + r + boxW] exceeds the page
    width, and to [y - r - boxH] exactly when [y + r + boxH] exceeds the
    page height.  The result of a flip is not tested again. *)
Theorem label_flip_rule (r x y boxW boxH pageWidth pageHeight : Q) :
  let box := PdfModifier.boxPosition r x y boxW boxH pageWidth pageHeight in
  (pageWidth < x + r + boxW -> cx box = x - r - boxW) /\
  (x + r + boxW <= pageWidth -> cx box = x + r) /\
  (pageHeight < y + r + boxH -> cy box = y - r - boxH) /\
  (y + r + boxH <= pageHeight -> cy box = y + r).
Proof.
  unfold PdfModifier.boxPosition; cbn [cx cy]. split_all; intros H.
  - apply gt_true in H. now rewrite H.
  - apply gt_false in H. now rewrite H.
  - apply gt_true in H. now rewrite H.
  - apply gt_false in H. now rewrite H.
Qed.

(** The example of the specification: on a 612 x 792 page, with a dot of
    radius 3 and a 40 x 20 box, the marker at (600, 700) flips
    horizontally only, and the box is anchored at (557, 703). *)
Lemma label_flip_rule_witness :
  let box := PdfModifier.boxPosition 3 600 700 40 20 612 792 in
  cx box == 557 /\ cy box == 703.
Proof.
  intros box.
  destruct (label_flip_rule 3 600 700 40 20 612 792) as (Hflip & _ & _ & Hstay).
  fold box in Hflip, Hstay. split.
  - rewrite Hflip; [reflexivity | reflexivity].
  - rewrite Hstay; [reflexivity | discriminate].
Defined.

(** The flipped corner is kept even when it leaves the page on the other
    side: a 40 x 20 box for a marker at (10, 10) of a 30 x 30 page. *)
Example flip_not_checked_again :
  PdfModifier.boxPosition 3 10 10 40 20 30 30 = {| cx := -33; cy := -13 |}.
Proof. vm_compute. reflexivity. Qed.

(** ** Drag updates *)

Lemma clamp_max_min (w t : Q) :
  0 <= w ->
  Js.Math_max 0 (Js.Math_min t w) == clamp_spec 0 w t /\
  0 <= Js.Math_max 0 (Js.Math_min t w) <= w.
Proof.
  intros Hw. unfold Js.Math_max, Js.Math_min, clamp_spec, Js.lt.
  destruct (Q.min_spec t w) as [[Hlt Hmin] | [Hle Hmin]];
    destruct (Q.max_spec 0 (Qmin t w)) as [[Hlt' Hmax] | [Hle' Hmax]];
    rewrite Hmax; rewrite Hmin in *;
    destruct (Js.gt 0 t) eqn:E0;
    try (apply gt_true in E0); try (apply gt_false in E0);
    destruct (Js.gt t w) eqn:E1;
    try (apply gt_true in E1); try (apply gt_false in E1);
    split_all; lra.
Qed.

(** [sampleDrag] is the drag state a press on [sampleAnnotation] sets. *)
Example sample_press :
  PdfCanvas.handleAnnotationMouseDown false
    {| PdfCanvas.clientX := 200; PdfCanvas.clientY := 300 |} sampleAnnotation
  = Some sampleDrag.
Proof. reflexivity. Qed.

(** C4 as stated fails.  A drag update made while the dimensions of the
    page are unknown is not clamped: the drag of [sampleAnnotation] to
    the target (-10, 900) stores a negative [x], which lies in [0, width]
    for no page size at all. *)
Lemma drag_clamp_counterexample :
  ~ (forall (pageDimensions : gmap Z PageDimensions) (pageNumber : Z) (scale : Q)
            (dragState : PdfCanvas.DragState) (e : PdfCanvas.MouseEvent)
            (ann ann' : AnnotationPoint),
        id ann = PdfCanvas.dragId dragState ->
        pageIndex ann = pageNumber ->
        App.dragUpdate pageDimensions pageNumber scale dragState e [ann] !! 0%nat
          = Some ann' ->
        exists d : PageDimensions,
          0 <= x ann' <= width d /\ 0 <= y ann' <= height d).
Proof.
  intros claim.
  assert (Hrun : App.dragUpdate ∅ 1%Z 1 sampleDrag sampleMove [sampleAnnotation] !! 0%nat
                 = Some {| id := "p1"; pageIndex := 1; x := -10; y := 900;
                           displayX := -10; displayY := 92 |})
    by (vm_compute; reflexivity).
  destruct (claim ∅ 1%Z 1 sampleDrag sampleMove sampleAnnotation _
              eq_refl eq_refl Hrun) as (d & [Hx _] & _).
  cbn [x] in Hx. apply Hx. reflexivity.
Qed.

(** C4, amended.  A drag update of an annotation of the page on display
    (an annotation is dragged on the page that shows it), when the
    dimensions of that page are known, with a width and a height that
    are not negative: each component of the target is clamped on its own,
    to [0, width] and to [0, height], and the cached view coordinates are
    those of the stored position. *)
Theorem drag_clamp
    (pageDimensions : gmap Z PageDimensions) (pageNumber : Z) (scale : Q)
    (dragState : PdfCanvas.DragState) (e : PdfCanvas.MouseEvent)
    (prev : list AnnotationPoint) (i : nat) (ann : AnnotationPoint)
    (d : PageDimensions)
    (Hann : prev !! i = Some ann)
    (Hid : id ann = PdfCanvas.dragId dragState)
    (Hpage : pageIndex ann = pageNumber)
    (Hd : pageDimensions !! pageNumber = Some d)
    (Hw : 0 <= width d) (Hh : 0 <= height d) :
  let targetX :=
    PdfCanvas.initialPdfX dragState
    + (PdfCanvas.clientX e - PdfCanvas.startX dragState) / scale in
  let targetY :=
    PdfCanvas.initialPdfY dragState
    + - ((PdfCanvas.clientY e - PdfCanvas.startY dragState) / scale) in
  exists ann',
    App.dragUpdate pageDimensions pageNumber scale dragState e prev !! i = Some ann' /\
    id ann' = id ann /\ pageIndex ann' = pageIndex ann /\
    x ann' == clamp_spec 0 (width d) targetX /\
    y ann' == clamp_spec 0 (height d) targetY /\
    0 <= x ann' <= width d /\ 0 <= y ann' <= height d /\
    displayX ann' = x ann' /\ displayY ann' = height d - y ann'.
Proof.
  intros targetX targetY.
  unfold App.dragUpdate, PdfCanvas.handleWindowMouseMove, App.handleUpdateAnnotationPosition.
  rewrite Hd. eexists. split; [apply lookup_map, Hann |].
  unfold App.updateOnePosition.
  rewrite (id_matches _ _ Hid), Hpage, Hd. cbn [id pageIndex x y displayX displayY].
  destruct (clamp_max_min (width d) targetX Hw) as (Hx & Hx0 & Hx1).
  destruct (clamp_max_min (height d) targetY Hh) as (Hy & Hy0 & Hy1).
  split_all; try reflexivity; assumption.
Qed.

(** The example of the specification: on a 612 x 792 page the drag
    target (-10, 900) is stored as (0, 792). *)
Lemma drag_clamp_witness :
  exists ann',
    App.dragUpdate {[ 1%Z := letterPage ]} 1 1 sampleDrag sampleMove [sampleAnnotation]
      !! 0%nat = Some ann' /\
    x ann' == 0 /\ y ann' == 792 /\ displayX ann' == 0 /\ displayY ann' == 0.
Proof.
  assert (Hd : ({[ 1%Z := letterPage ]} : gmap Z PageDimensions) !! 1%Z = Some letterPage)
    by reflexivity.
  assert (Hw : 0 <= width letterPage) by discriminate.
  assert (Hh : 0 <= height letterPage) by discriminate.
  destruct (drag_clamp {[ 1%Z := letterPage ]} 1 1 sampleDrag sampleMove
              [sampleAnnotation] 0 sampleAnnotation letterPage
              eq_refl eq_refl eq_refl Hd Hw Hh)
    as (ann' & H & _ & _ & Hx & Hy & _ & _ & Hdx & Hdy).
  exists ann'. split; [exact H |].
  assert (Hx' : x ann' == 0) by (rewrite Hx; reflexivity).
  assert (Hy' : y ann' == 792) by (rewrite Hy; reflexivity).
  split_all; try assumption.
  - rewrite Hdx. exact Hx'.
  - rewrite Hdy, Hy'. reflexivity.
Defined.

(** C10.  A drag update of an annotation of the page on display while the
    dimensions of that page are unknown: the target is stored as it is,
    with no clamping, [displayX] is set to the new [x], and [displayY]
    keeps the value it had. *)
Theorem drag_without_dimensions
    (pageDimensions : gmap Z PageDimensions) (pageNumber : Z) (scale : Q)
    (dragState : PdfCanvas.DragState) (e : PdfCanvas.MouseEvent)
    (prev : list AnnotationPoint) (i : nat) (ann : AnnotationPoint)
    (Hann : prev !! i = Some ann)
    (Hid : id ann = PdfCanvas.dragId dragState)
    (Hpage : pageIndex ann = pageNumber)
    (Hd : pageDimensions !! pageNumber = None) :
  let targetX :=
    PdfCanvas.initialPdfX dragState
    + (PdfCanvas.clientX e - PdfCanvas.startX dragState) / scale in
  let targetY :=
    PdfCanvas.initialPdfY dragState
    + - ((PdfCanvas.clientY e - PdfCanvas.startY dragState) / scale) in
  App.dragUpdate pageDimensions pageNumber scale dragState e prev !! i
  = Some {| id := id ann; pageIndex := pageIndex ann;
            x := targetX; y := targetY;
            displayX := targetX; displayY := displayY ann |}.
Proof.
  intros targetX targetY.
  unfold App.dragUpdate, PdfCanvas.handleWindowMouseMove, App.handleUpdateAnnotationPosition.
  rewrite Hd. rewrite (lookup_map _ _ _ _ Hann). f_equal.
  unfold App.updateOnePosition.
  now rewrite (id_matches _ _ Hid), Hpage, Hd.
Qed.

(** With no dimensions loaded, the drag of the example above leaves the
    annotation at (-10, 900), outside a 612 x 792 page, and its cached
    [displayY] at 92, the value that belonged to [y = 700]. *)
Lemma drag_without_dimensions_witness :
  exists ann',
    App.dragUpdate ∅ 1 1 sampleDrag sampleMove [sampleAnnotation] !! 0%nat = Some ann' /\
    x ann' == -10 /\ y ann' == 900 /\ displayX ann' == -10 /\ displayY ann' == 92 /\
    ~ (y ann' <= 792) /\ ~ (displayY ann' == 792 - y ann').
Proof.
  assert (Hd : (∅ : gmap Z PageDimensions) !! 1%Z = None) by reflexivity.
  pose proof (drag_without_dimensions ∅ 1 1 sampleDrag sampleMove
                [sampleAnnotation] 0 sampleAnnotation eq_refl eq_refl eq_refl Hd) as H.
  eexists. split; [exact H |].
  cbn [x y displayX displayY]. split_all; try (vm_compute; reflexivity).
  - vm_compute. intros Hle. apply Hle. reflexivity.
  - vm_compute. discriminate.
Defined.

(** ** The cached view coordinates *)





(** ** The ordered view *)

Lemma compare_le_0 (a b : AnnotationPoint) :
  App.compareAnnotations a b <= 0 <-> readingOrder_spec a b.
Proof.
  unfold App.compareAnnotations, readingOrder_spec, Js.Math_abs.
  rewrite (Qabs_Qminus (y a) (y b)).
  assert (Habs : (Qabs (y b - y a) == y b - y a /\ 0 <= y b - y a) \/
                 (Qabs (y b - y a) == - (y b - y a) /\ y b - y a <= 0)).
  { destruct (Qlt_le_dec (y b - y a) 0) as [Hneg | Hpos].
    - right. split; [apply Qabs_neg |]; lra.
    - left. split; [apply Qabs_pos |]; lra. }
  destruct (Z.eqb_spec (pageIndex a) (pageIndex b)) as [Hp | Hp]; cbn [negb].
  - destruct (Js.gt (Qabs (y b - y a)) 2) eqn:E;
      [apply gt_true in E | apply gt_false in E].
    + split.
      * intros H. right. split; [exact Hp |]. left. split; [exact E | lra].
      * intros [Hlt | (_ & [(_ & H) | (H & _)])]; [lia | lra | lra].
    + split.
      * intros H. right. split; [exact Hp |]. right. split; [exact E | lra].
      * intros [Hlt | (_ & [(H & _) | (_ & H)])]; [lia | lra | lra].
  - unfold Qle; cbn. split.
    + intros H. left. lia.
    + intros [Hlt | (Heq & _)]; [lia | contradiction].
Qed.

Lemma compare_antisym (a b : AnnotationPoint) :
  App.compareAnnotations b a == - App.compareAnnotations a b.
Proof.
  unfold App.compareAnnotations, Js.Math_abs.
  rewrite (Qabs_Qminus (y a) (y b)), (Z.eqb_sym (pageIndex b) (pageIndex a)).
  destruct (pageIndex a =? pageIndex b)%Z; cbn [negb].
  - destruct (Js.gt (Qabs (y b - y a)) 2); ring.
  - unfold Qeq; cbn. lia.
Qed.

(** The two branches of an insertion, in terms of the reading order. *)
Lemma compare_gt_order (a b : AnnotationPoint) :
  Js.gt (App.compareAnnotations a b) 0 = true -> readingOrder_spec b a.
Proof.
  intros H. apply gt_true in H. apply compare_le_0.
  rewrite compare_antisym. lra.
Qed.

Lemma compare_not_gt_order (a b : AnnotationPoint) :
  Js.gt (App.compareAnnotations a b) 0 = false -> readingOrder_spec a b.
Proof. intros H. apply gt_false in H. now apply compare_le_0. Qed.

Lemma readingOrder_pages (a b : AnnotationPoint) :
  readingOrder_spec a b -> (pageIndex a <= pageIndex b)%Z.
Proof. intros [H | [H _]]; lia. Qed.

Section Sort.

Context {A : Type} (cmp : A -> A -> Q) (R : A -> A -> Prop).
Hypothesis cmp_gt : forall a b, Js.gt (cmp a b) 0 = true -> R b a.
Hypothesis cmp_not_gt : forall a b, Js.gt (cmp a b) 0 = false -> R a b.

Lemma insertSorted_perm (a : A) (l : list A) :
  Permutation (App.insertSorted cmp a l) (a :: l).
Proof.
  induction l as [|b l IH]; cbn; [reflexivity |].
  destruct (Js.gt (cmp a b) 0); [| reflexivity].
  rewrite IH. apply perm_swap.
Qed.

Lemma sort_perm (l : list A) : Permutation (App.sort cmp l) l.
Proof.
  induction l as [|a l IH]; cbn; [reflexivity |].
  fold (App.sort cmp l). now rewrite insertSorted_perm, IH.
Qed.




(** Any two elements of the sorted list are in order, when the order is
    transitive on the elements that satisfy [P] and the list is made of
    such elements. *)
Variable P : A -> Prop.
Hypothesis R_trans : forall a b c, P a -> P b -> P c -> R a b -> R b c -> R a c.

Lemma insertSorted_StronglySorted (a : A) (l : list A) :
  P a -> Forall P l ->
  StronglySorted R l -> StronglySorted R (App.insertSorted cmp a l).
Proof.
  intros Pa. induction l as [|b l IH]; intros Pl Hl; cbn.
  - repeat constructor.
  - inversion Hl as [|? ? Hl' Hall]; subst.
    inversion Pl as [|? ? Pb Pl']; subst.
    destruct (Js.gt (cmp a b) 0) eqn:E.
    + constructor; [now apply IH |].
      rewrite insertSorted_perm. constructor; [now apply cmp_gt | assumption].
    + constructor; [assumption |].
      constructor; [now apply cmp_not_gt |].
      rewrite Forall_forall in Hall, Pl' |- *. intros c Hc.
      apply (R_trans a b c); auto.
Qed.

Lemma sort_StronglySorted (l : list A) :
  Forall P l -> StronglySorted R (App.sort cmp l).
Proof.
  induction l as [|a l IH]; intros Pl; cbn; [constructor |].
  inversion Pl; subst. apply insertSorted_StronglySorted; auto.
  fold (App.sort cmp l). now rewrite sort_perm.
Qed.

(** The sort is stable and leaves a list alone whose neighbours are in
    order already. *)
Hypothesis R_not_gt : forall a b, R a b -> Js.gt (cmp a b) 0 = false.


End Sort.

(** Decide the reading order of two given points by running the
    comparator. *)
Ltac order_holds := apply compare_le_0; vm_compute; discriminate.
Ltac order_fails H :=
  apply compare_le_0 in H; vm_compute in H; apply H; reflexivity.

(** Refute that a given list is in reading order throughout, by finding
    a pair that is not. *)
Ltac refute_sorted :=
  repeat match goal with
         | H : StronglySorted _ (_ :: _) |- _ => inversion H; clear H; subst
         | H : Forall _ (_ :: _) |- _ => inversion H; clear H; subst
         end;
  match goal with
  | H : readingOrder_spec _ _ |- _ => solve [order_fails H]
  end.

(** The arrangements of three given points. *)
Lemma three_arrangements {A : Type} (a b c : A) (out : list A) :
  Permutation out [a; b; c] ->
  out = [a; b; c] \/ out = [b; a; c] \/ out = [b; c; a] \/
  out = [a; c; b] \/ out = [c; a; b] \/ out = [c; b; a].
Proof.
  intros H. symmetry in H. apply permutations_Permutation in H. cbn in H.
  repeat (apply elem_of_cons in H as [-> | H]); auto 10.
  now apply elem_of_nil in H.
Qed.




(** The tolerance makes the reading order fail to be transitive: in a
    staircase of three points, each within 2 of the next but the ends 3
    apart, each point is before the next by [x] while the last is before
    the first by [y].  No arrangement of them is in reading order
    throughout, and [sort] is then free to return any. *)
Remark reading_order_not_transitive :
  readingOrder_spec stepLow stepMid /\
  readingOrder_spec stepMid stepHigh /\
  ~ readingOrder_spec stepLow stepHigh /\
  (forall out : list AnnotationPoint,
      Permutation out [stepLow; stepMid; stepHigh] ->
      ~ StronglySorted readingOrder_spec out).
Proof.
  split_all.
  - order_holds.
  - order_holds.
  - intros H. order_fails H.
  - intros out Hperm Hsorted.
    destruct (three_arrangements _ _ _ _ Hperm) as [-> | [-> | [-> | [-> | [-> | ->]]]]];
      refute_sorted.
Qed.

(** ** The exporter *)

(** The run of [saveAnnotatedPdf], stage by stage. *)
Lemma saveAnnotatedPdf_run
    (lib : PdfModifier.PdfLib) (originalPdfBytes : list Byte.byte)
    (annotations : list AnnotationPoint) (fileName : string)
    (origin : CoordinateOrigin) (w : list PdfModifier.Download) :
  PdfModifier.saveAnnotatedPdf lib originalPdfBytes annotations fileName origin w =
  match PdfModifier.load lib originalPdfBytes with
  | PdfModifier.Throw _ => (PdfModifier.Throw "Failed to save annotated PDF."%string, w)
  | PdfModifier.Ok pages =>
      match PdfModifier.embedFont lib pages with
      | PdfModifier.Throw _ => (PdfModifier.Throw "Failed to save annotated PDF."%string, w)
      | PdfModifier.Ok font =>
          match PdfModifier.save lib (PdfModifier.drawAll font origin annotations pages) with
          | PdfModifier.Throw _ => (PdfModifier.Throw "Failed to save annotated PDF."%string, w)
          | PdfModifier.Ok out =>
              (PdfModifier.Ok tt,
               w ++ [{| PdfModifier.blob := out;
                        PdfModifier.download := ("annotated_" ++ fileName)%string |}])
          end
      end
  end.
Proof.
  unfold PdfModifier.saveAnnotatedPdf, PdfModifier.try_catch, PdfModifier.bind,
    PdfModifier.call, PdfModifier.click, PdfModifier.throw.
  destruct (PdfModifier.load lib originalPdfBytes) as [pages | e]; [| reflexivity].
  destruct (PdfModifier.embedFont lib pages) as [font | e]; [| reflexivity].
  destruct (PdfModifier.save lib _) as [out | e]; reflexivity.
Qed.

(** Grouping: the list of a key is the list of the annotations of that
    page, in order; a page with no annotation has no key. *)
Lemma groupByPage_lookup (annotations : list AnnotationPoint) (k : Z) :
  PdfModifier.groupByPage annotations !! k =
  match pageAnnotations k annotations with
  | [] => None
  | pageAnns => Some pageAnns
  end.
Proof.
  unfold PdfModifier.groupByPage, pageAnnotations.
  induction annotations as [|a annotations IH] using rev_ind.
  - cbn. apply lookup_empty.
  - rewrite foldl_snoc, filter_app.
    set (m := foldl _ ∅ annotations) in *.
    set (m' := match m !! pageIndex a with
               | None => <[pageIndex a := []]> m
               | Some _ => m
               end).
    assert (Hdef : default [] (m' !! pageIndex a) = default [] (m !! pageIndex a)).
    { subst m'. destruct (m !! pageIndex a) eqn:E.
      - now rewrite E.
      - now rewrite lookup_insert_eq. }
    assert (Hother : k ≠ pageIndex a -> m' !! k = m !! k).
    { intros Hne. subst m'. destruct (m !! pageIndex a); [reflexivity |].
      now rewrite lookup_insert_ne. }
    change (filter (fun ann => pageIndex ann = k) [a])
      with (if decide (pageIndex a = k) then [a] else []).
    destruct (decide (pageIndex a = k)) as [Heq | Hne].
    + rewrite <- Heq at 1. rewrite lookup_insert_eq, Hdef.
      rewrite <- Heq in IH. rewrite IH, <- Heq.
      destruct (filter _ annotations) as [|b l]; reflexivity.
    + rewrite app_nil_r.
      rewrite lookup_insert_ne by exact Hne.
      rewrite Hother by congruence. exact IH.
Qed.

(** One annotation appends its drawing to the page. *)
Lemma labelText_is_spec (origin : CoordinateOrigin) (d : PageDimensions) (ann : AnnotationPoint) :
  PdfModifier.labelText origin (width d) (height d) ann = labelText_spec origin d ann.
Proof. now destruct origin. Qed.

Lemma drawAnnotation_content
    (font : PdfModifier.PDFFont) (origin : CoordinateOrigin)
    (page : PdfModifier.PDFPage) (ann : AnnotationPoint) :
  PdfModifier.getSize (PdfModifier.drawAnnotation font origin page ann)
    = PdfModifier.getSize page /\
  PdfModifier.content (PdfModifier.drawAnnotation font origin page ann)
    = PdfModifier.content page
      ++ annotationDrawing_spec font origin (PdfModifier.getSize page) ann.
Proof.
  split; [reflexivity |].
  unfold PdfModifier.drawAnnotation, annotationDrawing_spec.
  rewrite labelText_is_spec.
  cbn [PdfModifier.drawCircle PdfModifier.drawRectangle PdfModifier.drawText
       PdfModifier.content PdfModifier.getSize].
  repeat rewrite <- app_assoc. reflexivity.
Qed.

Lemma foldl_drawAnnotation_content
    (font : PdfModifier.PDFFont) (origin : CoordinateOrigin)
    (pageAnns : list AnnotationPoint) (page : PdfModifier.PDFPage) :
  PdfModifier.getSize (foldl (PdfModifier.drawAnnotation font origin) page pageAnns)
    = PdfModifier.getSize page /\
  PdfModifier.content (foldl (PdfModifier.drawAnnotation font origin) page pageAnns)
    = PdfModifier.content page
      ++ concat (map (annotationDrawing_spec font origin (PdfModifier.getSize page)) pageAnns).
Proof.
  revert page. induction pageAnns as [|a pageAnns IH]; intros page; cbn [foldl map concat].
  - now rewrite app_nil_r.
  - destruct (IH (PdfModifier.drawAnnotation font origin page a)) as [Hsize Hcontent].
    destruct (drawAnnotation_content font origin page a) as [Hsize1 Hcontent1].
    cbn [foldl] in *. rewrite Hsize, Hcontent, Hsize1, Hcontent1.
    split; [reflexivity | now rewrite <- app_assoc].
Qed.

(** One key touches the page it names, and no other. *)
Lemma processPage_lookup
    (font : PdfModifier.PDFFont) (origin : CoordinateOrigin)
    (pages : list PdfModifier.PDFPage) (key : Z) (pageAnns : list AnnotationPoint)
    (i : nat) (page : PdfModifier.PDFPage) :
  pages !! i = Some page ->
  PdfModifier.processPage font origin pages (key, pageAnns) !! i
  = Some (if decide (key = Z.of_nat i + 1)%Z
          then foldl (PdfModifier.drawAnnotation font origin) page pageAnns
          else page).
Proof.
  intros Hi. pose proof (lookup_lt_Some _ _ _ Hi) as Hlt.
  unfold PdfModifier.processPage.
  destruct ((0 <=? key - 1)%Z && (key - 1 <? Z.of_nat (length pages))%Z)%bool eqn:Hrange.
  - apply andb_true_iff in Hrange as [H0 H1].
    apply Z.leb_le in H0. apply Z.ltb_lt in H1.
    destruct (pages !! Z.to_nat (key - 1)) as [page0|] eqn:E.
    + destruct (decide (key = Z.of_nat i + 1)%Z) as [-> | Hne].
      * replace (Z.to_nat (Z.of_nat i + 1 - 1)) with i in * by lia.
        rewrite list_lookup_insert_eq by exact Hlt. congruence.
      * rewrite list_lookup_insert_ne by lia. exact Hi.
    + apply lookup_ge_None in E. lia.
  - rewrite Hi. destruct (decide (key = Z.of_nat i + 1)%Z) as [-> | Hne]; [| reflexivity].
    apply andb_false_iff in Hrange as [H | H];
      [apply Z.leb_gt in H | apply Z.ltb_ge in H]; lia.
Qed.

Lemma foldl_processPage_other
    (font : PdfModifier.PDFFont) (origin : CoordinateOrigin)
    (entries : list (Z * list AnnotationPoint))
    (pages : list PdfModifier.PDFPage) (i : nat) (page : PdfModifier.PDFPage) :
  (Z.of_nat i + 1)%Z ∉ entries.*1 ->
  pages !! i = Some page ->
  foldl (PdfModifier.processPage font origin) pages entries !! i = Some page.
Proof.
  revert pages. induction entries as [|[key pageAnns] entries IH]; intros pages Hnot Hi.
  - exact Hi.
  - cbn [foldl]. cbn in Hnot. apply not_elem_of_cons in Hnot as [Hne Hnot].
    apply IH; [exact Hnot |].
    rewrite (processPage_lookup _ _ _ _ _ _ _ Hi).
    now rewrite decide_False by congruence.
Qed.

Lemma foldl_processPage_key
    (font : PdfModifier.PDFFont) (origin : CoordinateOrigin)
    (entries : list (Z * list AnnotationPoint)) (pageAnns : list AnnotationPoint)
    (pages : list PdfModifier.PDFPage) (i : nat) (page : PdfModifier.PDFPage) :
  NoDup entries.*1 ->
  (Z.of_nat i + 1, pageAnns)%Z ∈ entries ->
  pages !! i = Some page ->
  foldl (PdfModifier.processPage font origin) pages entries !! i
  = Some (foldl (PdfModifier.drawAnnotation font origin) page pageAnns).
Proof.
  revert pages page.
  induction entries as [|[key anns] entries IH]; intros pages page Hnodup Hin Hi.
  - now apply elem_of_nil in Hin.
  - cbn [foldl]. cbn in Hnodup. apply NoDup_cons in Hnodup as [Hfresh Hnodup].
    pose proof (processPage_lookup font origin pages key anns i page Hi) as Hstep.
    apply elem_of_cons in Hin as [Heq | Hin].
    + inversion Heq; subst key anns.
      rewrite decide_True in Hstep by reflexivity.
      now apply foldl_processPage_other.
    + rewrite decide_False in Hstep.
      * now apply IH.
      * intros ->. apply Hfresh.
        apply (list_elem_of_fmap_2 fst) in Hin. exact Hin.
Qed.

(** The pages after the loop: page [i + 1] has received the drawings of
    its annotations, in the order of the list, and nothing else. *)
Lemma drawAll_lookup
    (font : PdfModifier.PDFFont) (origin : CoordinateOrigin)
    (annotations : list AnnotationPoint)
    (pages : list PdfModifier.PDFPage) (i : nat) (page : PdfModifier.PDFPage) :
  pages !! i = Some page ->
  PdfModifier.drawAll font origin annotations pages !! i
  = Some (foldl (PdfModifier.drawAnnotation font origin) page
            (pageAnnotations (Z.of_nat i + 1) annotations)).
Proof.
  intros Hi. unfold PdfModifier.drawAll.
  pose proof (groupByPage_lookup annotations (Z.of_nat i + 1)) as Hgroup.
  destruct (pageAnnotations (Z.of_nat i + 1) annotations) as [|a pageAnns] eqn:E.
  - apply foldl_processPage_other; [| exact Hi].
    intros Hin. apply list_elem_of_fmap in Hin as ([key anns] & Hkey & Hin).
    cbn in Hkey. subst key. apply elem_of_map_to_list in Hin. congruence.
  - apply foldl_processPage_key; [apply NoDup_fst_map_to_list | | exact Hi].
    now apply elem_of_map_to_list.
Qed.

Lemma processPage_length
    (font : PdfModifier.PDFFont) (origin : CoordinateOrigin)
    (pages : list PdfModifier.PDFPage) (entry : Z * list AnnotationPoint) :
  length (PdfModifier.processPage font origin pages entry) = length pages.
Proof.
  destruct entry as [key pageAnns]. unfold PdfModifier.processPage.
  destruct (_ && _)%bool; [| reflexivity].
  destruct (pages !! _); [apply length_insert | reflexivity].
Qed.

Lemma drawAll_length
    (font : PdfModifier.PDFFont) (origin : CoordinateOrigin)
    (annotations : list AnnotationPoint) (pages : list PdfModifier.PDFPage) :
  length (PdfModifier.drawAll font origin annotations pages) = length pages.
Proof.
  unfold PdfModifier.drawAll. generalize (map_to_list (PdfModifier.groupByPage annotations)).
  intros entries. revert pages.
  induction entries as [|entry entries IH]; intros pages; cbn [foldl]; [reflexivity |].
  now rewrite IH, processPage_length.
Qed.

(** A successful export has passed every stage. *)
Lemma saveAnnotatedPdf_ok_inv
    (lib : PdfModifier.PdfLib) (originalPdfBytes : list Byte.byte)
    (annotations : list AnnotationPoint) (fileName : string)
    (origin : CoordinateOrigin) (w w' : list PdfModifier.Download) :
  PdfModifier.saveAnnotatedPdf lib originalPdfBytes annotations fileName origin w
    = (PdfModifier.Ok tt, w') ->
  exists pages font out,
    PdfModifier.load lib originalPdfBytes = PdfModifier.Ok pages /\
    PdfModifier.embedFont lib pages = PdfModifier.Ok font /\
    PdfModifier.save lib (PdfModifier.drawAll font origin annotations pages)
      = PdfModifier.Ok out /\
    w' = w ++ [{| PdfModifier.blob := out;
                  PdfModifier.download := ("annotated_" ++ fileName)%string |}].
Proof.
  intros H. rewrite saveAnnotatedPdf_run in H.
  destruct (PdfModifier.load lib originalPdfBytes) as [pages | e1]; [| discriminate].
  destruct (PdfModifier.embedFont lib pages) as [font | e2] eqn:Hfont; [| discriminate].
  destruct (PdfModifier.save lib _) as [out | e3] eqn:Hsave; [| discriminate].
  exists pages, font, out. inversion H. split_all; auto.
Qed.

(** C8.  An export that fails at any stage (parsing the source bytes,
    embedding the font, serialising the document) throws the one message
    "Failed to save annotated PDF." whatever the stage threw, and triggers
    no download; an export triggers its one download only when every
    stage has succeeded.  [handleSave] then shows its own single message
    and has nothing downloaded. *)
Theorem export_failure
    (lib : PdfModifier.PdfLib) (originalPdfBytes : list Byte.byte)
    (annotations : list AnnotationPoint) (fileName : string)
    (origin : CoordinateOrigin) (w : list PdfModifier.Download) :
  let run := PdfModifier.saveAnnotatedPdf lib originalPdfBytes annotations fileName origin w in
  let failed := (PdfModifier.Throw "Failed to save annotated PDF."%string, w) in
  (forall e, PdfModifier.load lib originalPdfBytes = PdfModifier.Throw e -> run = failed) /\
  (forall pages e,
      PdfModifier.load lib originalPdfBytes = PdfModifier.Ok pages ->
      PdfModifier.embedFont lib pages = PdfModifier.Throw e ->
      run = failed) /\
  (forall pages font e,
      PdfModifier.load lib originalPdfBytes = PdfModifier.Ok pages ->
      PdfModifier.embedFont lib pages = PdfModifier.Ok font ->
      PdfModifier.save lib (PdfModifier.drawAll font origin annotations pages)
        = PdfModifier.Throw e ->
      run = failed) /\
  (forall e w', run = (PdfModifier.Throw e, w') ->
      e = "Failed to save annotated PDF."%string /\ w' = w) /\
  (forall w', run = (PdfModifier.Ok tt, w') ->
      exists pages font out,
        PdfModifier.load lib originalPdfBytes = PdfModifier.Ok pages /\
        PdfModifier.embedFont lib pages = PdfModifier.Ok font /\
        PdfModifier.save lib (PdfModifier.drawAll font origin annotations pages)
          = PdfModifier.Ok out /\
        w' = w ++ [{| PdfModifier.blob := out;
                      PdfModifier.download := ("annotated_" ++ fileName)%string |}]) /\
  (forall error e w', run = (PdfModifier.Throw e, w') ->
      App.handleSave lib (Some originalPdfBytes) (Some fileName) annotations origin error w
      = (Some "Failed to save the PDF. Please try again."%string, w)).
Proof.
  intros run failed. subst run failed.
  pose proof (saveAnnotatedPdf_run lib originalPdfBytes annotations fileName origin w) as Hrun.
  split_all.
  - intros e He. now rewrite Hrun, He.
  - intros pages e Hl He. now rewrite Hrun, Hl, He.
  - intros pages font e Hl Hf He. now rewrite Hrun, Hl, Hf, He.
  - intros e w' H. rewrite Hrun in H.
    destruct (PdfModifier.load lib originalPdfBytes) as [pages | e1];
      [| now inversion H].
    destruct (PdfModifier.embedFont lib pages) as [font | e2]; [| now inversion H].
    destruct (PdfModifier.save lib _) as [out | e3]; [discriminate | now inversion H].
  - apply saveAnnotatedPdf_ok_inv.
  - intros error e w' H. unfold App.handleSave. rewrite H.
    rewrite Hrun in H.
    destruct (PdfModifier.load lib originalPdfBytes) as [pages | e1];
      [| now inversion H].
    destruct (PdfModifier.embedFont lib pages) as [font | e2]; [| now inversion H].
    destruct (PdfModifier.save lib _) as [out | e3]; [discriminate | now inversion H].
Qed.

Lemma export_failure_witness :
  PdfModifier.saveAnnotatedPdf failingLoad [] [sampleAnnotation] "doc.pdf" TOP_LEFT []
    = (PdfModifier.Throw "Failed to save annotated PDF."%string, []) /\
  PdfModifier.saveAnnotatedPdf failingEmbed [] [sampleAnnotation] "doc.pdf" TOP_LEFT []
    = (PdfModifier.Throw "Failed to save annotated PDF."%string, []) /\
  PdfModifier.saveAnnotatedPdf failingSave [] [sampleAnnotation] "doc.pdf" TOP_LEFT []
    = (PdfModifier.Throw "Failed to save annotated PDF."%string, []) /\
  App.handleSave failingSave (Some []) (Some "doc.pdf"%string) [sampleAnnotation] TOP_LEFT None []
    = (Some "Failed to save the PDF. Please try again."%string, []).
Proof.
  split_all.
  - apply (proj1 (export_failure failingLoad [] [sampleAnnotation] "doc.pdf" TOP_LEFT []))
      with (e := "No PDF header found"%string).
    reflexivity.
  - destruct (export_failure failingEmbed [] [sampleAnnotation] "doc.pdf" TOP_LEFT [])
      as (_ & H & _).
    apply (H [blankLetterPage] "Cannot embed font"%string); reflexivity.
  - destruct (export_failure failingSave [] [sampleAnnotation] "doc.pdf" TOP_LEFT [])
      as (_ & _ & H & _).
    apply (H [blankLetterPage] sampleFont "Cannot serialise"%string); reflexivity.
  - destruct (export_failure failingSave [] [sampleAnnotation] "doc.pdf" TOP_LEFT [])
      as (_ & _ & _ & _ & _ & H).
    apply (H None "Failed to save annotated PDF."%string []).
    vm_compute. reflexivity.
Defined.

(** C9 as stated fails.  An annotation of page 2 given to the exporter
    with a document of one page is drawn nowhere: the page stays blank,
    and the export succeeds all the same. *)
Lemma export_omits_counterexample :
  ~ (forall (font : PdfModifier.PDFFont) (origin : CoordinateOrigin)
            (annotations : list AnnotationPoint) (pages : list PdfModifier.PDFPage)
            (ann : AnnotationPoint),
        In ann annotations ->
        exists page',
          In page' (PdfModifier.drawAll font origin annotations pages) /\
          In (PdfModifier.Circle (x ann) (y ann) PdfModifier.DOT_RADIUS
                PdfModifier.RED_COLOR 0)
             (PdfModifier.content page')).
Proof.
  intros claim.
  destruct (claim sampleFont BOTTOM_LEFT [strayAnnotation] [blankLetterPage]
              strayAnnotation (or_introl eq_refl)) as (page' & Hpage & Hdisc).
  assert (Hrun : PdfModifier.drawAll sampleFont BOTTOM_LEFT [strayAnnotation] [blankLetterPage]
                 = [blankLetterPage]) by (vm_compute; reflexivity).
  rewrite Hrun in Hpage. destruct Hpage as [<- | []]. exact Hdisc.
Qed.

(** C9, amended.  When the export succeeds, the document it serialises
    has the pages of the source, and page [i + 1] holds its former
    content followed by the drawings of the annotations of that page, in
    the order of the list.  So every annotation whose [pageIndex] is the
    number of a page of the document is drawn on that page: the disc of
    radius [DOT_RADIUS] at its canonical position, the label box at the
    corner the flip rule gives, and the text of its rounded user-frame
    coordinates. *)
Theorem export_draws_annotations
    (lib : PdfModifier.PdfLib) (originalPdfBytes : list Byte.byte)
    (annotations : list AnnotationPoint) (fileName : string)
    (origin : CoordinateOrigin) (w w' : list PdfModifier.Download)
    (Hok : PdfModifier.saveAnnotatedPdf lib originalPdfBytes annotations fileName origin w
           = (PdfModifier.Ok tt, w')) :
  exists pages font pages' out,
    PdfModifier.load lib originalPdfBytes = PdfModifier.Ok pages /\
    PdfModifier.embedFont lib pages = PdfModifier.Ok font /\
    PdfModifier.save lib pages' = PdfModifier.Ok out /\
    w' = w ++ [{| PdfModifier.blob := out;
                  PdfModifier.download := ("annotated_" ++ fileName)%string |}] /\
    length pages' = length pages /\
    (forall (i : nat) (page : PdfModifier.PDFPage),
        pages !! i = Some page ->
        exists page',
          pages' !! i = Some page' /\
          PdfModifier.getSize page' = PdfModifier.getSize page /\
          PdfModifier.content page'
          = PdfModifier.content page
            ++ concat (map (annotationDrawing_spec font origin (PdfModifier.getSize page))
                         (pageAnnotations (Z.of_nat i + 1) annotations))) /\
    (forall ann : AnnotationPoint,
        In ann annotations ->
        (1 <= pageIndex ann <= Z.of_nat (length pages))%Z ->
        exists page page' before after,
          pages !! Z.to_nat (pageIndex ann - 1) = Some page /\
          pages' !! Z.to_nat (pageIndex ann - 1) = Some page' /\
          PdfModifier.content page'
          = PdfModifier.content page ++ before
            ++ annotationDrawing_spec font origin (PdfModifier.getSize page) ann
            ++ after).
Proof.
  destruct (saveAnnotatedPdf_ok_inv lib originalPdfBytes annotations fileName origin w w' Hok)
    as (pages & font & out & Hload & Hfont & Hsave & Hw).
  exists pages, font, (PdfModifier.drawAll font origin annotations pages), out.
  assert (Hpage : forall (i : nat) (page : PdfModifier.PDFPage),
             pages !! i = Some page ->
             exists page',
               PdfModifier.drawAll font origin annotations pages !! i = Some page' /\
               PdfModifier.getSize page' = PdfModifier.getSize page /\
               PdfModifier.content page'
               = PdfModifier.content page
                 ++ concat (map (annotationDrawing_spec font origin (PdfModifier.getSize page))
                              (pageAnnotations (Z.of_nat i + 1) annotations))).
  { intros i page Hi. eexists. split; [apply drawAll_lookup, Hi |].
    apply foldl_drawAnnotation_content. }
  split_all; try assumption.
  - apply drawAll_length.
  - intros ann Hin Hrange.
    destruct (lookup_lt_is_Some_2 pages (Z.to_nat (pageIndex ann - 1))) as [page Hi]; [lia |].
    destruct (Hpage _ _ Hi) as (page' & Hi' & _ & Hcontent).
    replace (Z.of_nat (Z.to_nat (pageIndex ann - 1)) + 1)%Z with (pageIndex ann)
      in Hcontent by lia.
    assert (Hmem : ann ∈ pageAnnotations (pageIndex ann) annotations).
    { apply list_elem_of_filter. split; [reflexivity | now apply list_elem_of_In]. }
    apply list_elem_of_split in Hmem as (l1 & l2 & Hsplit).
    rewrite Hsplit, map_app, concat_app in Hcontent. cbn [map concat] in Hcontent.
    exists page, page', (concat (map (annotationDrawing_spec font origin
                                         (PdfModifier.getSize page)) l1)),
      (concat (map (annotationDrawing_spec font origin (PdfModifier.getSize page)) l2)).
    split_all; assumption.
Qed.

(** What is drawn for [sampleAnnotation] on a 612 x 792 page under the
    top-left origin, with a font that makes the label 88 wide and 8 high:
    the marker, the box of 92 x 12 at (103, 703) and the text. *)
Example sample_drawing :
  annotationDrawing_spec sampleFont TOP_LEFT letterPage sampleAnnotation
  = [ PdfModifier.Circle 100 700 3 PdfModifier.RED_COLOR 0;
      PdfModifier.Rectangle 103 706 92 6 PdfModifier.RED_COLOR;
      PdfModifier.Rectangle 106 703 86 12 PdfModifier.RED_COLOR;
      PdfModifier.Circle 106 706 3 PdfModifier.RED_COLOR 0;
      PdfModifier.Circle 192 706 3 PdfModifier.RED_COLOR 0;
      PdfModifier.Circle 192 712 3 PdfModifier.RED_COLOR 0;
      PdfModifier.Circle 106 712 3 PdfModifier.RED_COLOR 0;
      PdfModifier.Text "x:100, y:92" 105 706.5 8 PdfModifier.WHITE_COLOR ].
Proof. vm_compute. reflexivity. Qed.

Lemma export_draws_annotations_witness :
  exists pages' out page' before after,
    PdfModifier.save sampleLib pages' = PdfModifier.Ok out /\
    pages' !! 0%nat = Some page' /\
    PdfModifier.content page'
    = before ++ annotationDrawing_spec sampleFont TOP_LEFT letterPage sampleAnnotation
      ++ after.
Proof.
  assert (Hok : PdfModifier.saveAnnotatedPdf sampleLib []
                  [strayAnnotation; sampleAnnotation] "doc.pdf" TOP_LEFT []
                = (PdfModifier.Ok tt,
                   [{| PdfModifier.blob := [Byte.x00];
                       PdfModifier.download := "annotated_doc.pdf" |}]))
    by (vm_compute; reflexivity).
  destruct (export_draws_annotations sampleLib [] [strayAnnotation; sampleAnnotation]
              "doc.pdf" TOP_LEFT [] _ Hok)
    as (pages & font & pages' & out & Hload & Hfont & Hsave & _ & _ & _ & Hann).
  injection Hload as <-. injection Hfont as <-.
  destruct (Hann sampleAnnotation) as (page & page' & before & after & Hi & Hi' & Hcontent).
  - right. left. reflexivity.
  - cbn. lia.
  - injection Hi as <-.
    exists pages', out, page', before, after. split_all; assumption.
Defined.

(** * Further properties of the code *)

(** ** The annotation list *)

Lemma id_differs (ann : AnnotationPoint) (target : string) :
  id ann <> target -> negb (String.eqb (id ann) target) = true.
Proof. intros H. now apply negb_true_iff, String.eqb_neq. Qed.

(** X1.  Deleting an identifier removes every annotation that carries it
    and nothing else, keeps the others in their order, changes nothing
    when no annotation carries it, and clears the selection exactly when
    the deleted identifier was the selected one. *)
Theorem delete_annotation (target : string) (prev : list AnnotationPoint) :
  (forall a, In a (App.handleDeleteAnnotation target prev) <-> In a prev /\ id a <> target) /\
  (exists removed,
      Permutation prev (App.handleDeleteAnnotation target prev ++ removed) /\
      Forall (fun a => id a = target) removed) /\
  sublist (App.handleDeleteAnnotation target prev) prev /\
  ((forall a, In a prev -> id a <> target) ->
   App.handleDeleteAnnotation target prev = prev) /\
  App.handleDeleteAnnotation target (App.handleDeleteAnnotation target prev)
    = App.handleDeleteAnnotation target prev /\
  (forall selectedId,
      App.selectedAfterDelete selectedId target <> Some target /\
      (selectedId <> Some target -> App.selectedAfterDelete selectedId target = selectedId)).
Proof.
  unfold App.handleDeleteAnnotation. split_all.
  - intros a. rewrite filter_In, negb_true_iff, String.eqb_neq. reflexivity.
  - induction prev as [|b prev (removed & Hperm & Hall)]; cbn.
    + exists []. split; [reflexivity | constructor].
    + destruct (String.eqb_spec (id b) target) as [Heq | Hne]; cbn.
      * exists (b :: removed). split; [| now constructor].
        rewrite <- Permutation_middle. now constructor.
      * exists removed. split; [now constructor | assumption].
  - induction prev as [|b prev IH]; cbn; [constructor |].
    destruct (negb _); [now apply sublist_skip | now apply sublist_cons].
  - intros Hfresh. induction prev as [|b prev IH]; cbn; [reflexivity |].
    rewrite (id_differs b target) by (apply Hfresh; now left).
    f_equal. apply IH. intros a Ha. apply Hfresh. now right.
  - induction prev as [|b prev IH]; cbn; [reflexivity |].
    destruct (negb (String.eqb (id b) target)) eqn:E; cbn; [| exact IH].
    now rewrite E, IH.
  - intros [selected|]; cbn; [| split; [discriminate | reflexivity]].
    destruct (String.eqb_spec selected target) as [-> | Hne]; split;
      try discriminate; try congruence.
Qed.

Lemma delete_annotation_witness :
  App.handleDeleteAnnotation "b" [pointA; pointB; pointC] = [pointA; pointC] /\
  App.handleDeleteAnnotation "zz" [pointA; pointB; pointC] = [pointA; pointB; pointC] /\
  App.selectedAfterDelete (Some "b"%string) "b" = None /\
  App.selectedAfterDelete (Some "a"%string) "b" = Some "a"%string.
Proof.
  destruct (delete_annotation "zz" [pointA; pointB; pointC]) as (_ & _ & _ & Hnoop & _).
  destruct (delete_annotation "b" [pointA; pointB; pointC]) as (_ & _ & _ & _ & _ & Hsel).
  split_all.
  - reflexivity.
  - apply Hnoop. intros a [<- | [<- | [<- | []]]]; discriminate.
  - destruct (Hsel (Some "b"%string)) as [Hne _].
    destruct (App.selectedAfterDelete (Some "b"%string) "b") as [s|] eqn:E;
      [| reflexivity].
    vm_compute in E. discriminate E.
  - apply (proj2 (Hsel (Some "a"%string))). discriminate.
Defined.

(** X2.  Adding an annotation whose identifier is carried by no
    annotation of the list, then deleting that identifier, gives the list
    back; the added annotation is the last of the list and is shown on
    its own page only. *)
Theorem add_then_delete (ann : AnnotationPoint) (prev : list AnnotationPoint)
    (Hfresh : forall a, In a prev -> id a <> id ann) :
  App.handleDeleteAnnotation (id ann) (App.handleAddAnnotation ann prev) = prev /\
  last (App.handleAddAnnotation ann prev) = Some ann /\
  (forall pageNumber,
      In ann (PdfCanvas.pageAnnotations pageNumber (App.handleAddAnnotation ann prev))
      <-> pageNumber = pageIndex ann).
Proof.
  unfold App.handleDeleteAnnotation, App.handleAddAnnotation, PdfCanvas.pageAnnotations.
  split_all.
  - rewrite List.filter_app. cbn. rewrite String.eqb_refl. cbn. rewrite app_nil_r.
    induction prev as [|b prev IH]; cbn; [reflexivity |].
    rewrite (id_differs b (id ann)) by (apply Hfresh; now left).
    f_equal. apply IH. intros a Ha. apply Hfresh. now right.
  - apply last_snoc.
  - intros pageNumber. rewrite filter_In, Z.eqb_eq. split.
    + intros [_ H]. now symmetry.
    + intros ->. split; [| reflexivity]. apply in_or_app. right. now left.
Qed.

Lemma add_then_delete_witness :
  App.handleDeleteAnnotation "p1" (App.handleAddAnnotation sampleAnnotation [pointA; pointB])
  = [pointA; pointB].
Proof.
  apply (add_then_delete sampleAnnotation [pointA; pointB]).
  intros a [<- | [<- | []]]; discriminate.
Defined.

(** X3.  The two updates of a position, by drag and by field edit, keep
    the length of the list, the identifier and the page of every
    annotation, and every annotation that does not carry the targeted
    identifier; aimed at an identifier that no annotation carries, they
    return the list as it is. *)
Theorem updates_keep_identity
    (pageDimensions : gmap Z PageDimensions) (origin : CoordinateOrigin)
    (target : string) (prev : list AnnotationPoint) :
  (forall newX newY : Q,
      let next := App.handleUpdateAnnotationPosition pageDimensions target newX newY prev in
      map id next = map id prev /\ map pageIndex next = map pageIndex prev /\
      (forall i a, prev !! i = Some a -> id a <> target -> next !! i = Some a) /\
      ((forall a, In a prev -> id a <> target) -> next = prev)) /\
  (forall newX newY : option Q,
      let next := App.updateAnnotationFromDisplay pageDimensions origin target newX newY prev in
      map id next = map id prev /\ map pageIndex next = map pageIndex prev /\
      (forall i a, prev !! i = Some a -> id a <> target -> next !! i = Some a) /\
      ((forall a, In a prev -> id a <> target) -> next = prev)).
Proof.
  assert (Hpos : forall newX newY a,
             id (App.updateOnePosition pageDimensions target newX newY a) = id a /\
             pageIndex (App.updateOnePosition pageDimensions target newX newY a)
               = pageIndex a /\
             (id a <> target ->
              App.updateOnePosition pageDimensions target newX newY a = a)).
  { intros newX newY a. unfold App.updateOnePosition.
    destruct (negb (String.eqb (id a) target)) eqn:E; split_all; try reflexivity.
    intros Hne. now rewrite (id_differs _ _ Hne) in E. }
  assert (Hedit : forall newX newY a,
             id (App.updateOneFromDisplay pageDimensions origin target newX newY a) = id a /\
             pageIndex (App.updateOneFromDisplay pageDimensions origin target newX newY a)
               = pageIndex a /\
             (id a <> target ->
              App.updateOneFromDisplay pageDimensions origin target newX newY a = a)).
  { intros newX newY a. unfold App.updateOneFromDisplay.
    destruct (negb (String.eqb (id a) target)) eqn:E; split_all; try reflexivity.
    - now destruct (pageDimensions !! pageIndex a).
    - now destruct (pageDimensions !! pageIndex a).
    - intros Hne. now rewrite (id_differs _ _ Hne) in E. }
  split; intros newX newY next; subst next;
    unfold App.handleUpdateAnnotationPosition, App.updateAnnotationFromDisplay;
    split_all.
  - rewrite map_map. apply map_ext. intros a. apply Hpos.
  - rewrite map_map. apply map_ext. intros a. apply Hpos.
  - intros i a Hi Hne. rewrite (lookup_map _ _ _ _ Hi). f_equal. now apply Hpos.
  - intros Hfresh. rewrite <- (map_id prev) at 2. apply map_ext_in.
    intros a Ha. apply Hpos. now apply Hfresh.
  - rewrite map_map. apply map_ext. intros a. apply Hedit.
  - rewrite map_map. apply map_ext. intros a. apply Hedit.
  - intros i a Hi Hne. rewrite (lookup_map _ _ _ _ Hi). f_equal. now apply Hedit.
  - intros Hfresh. rewrite <- (map_id prev) at 2. apply map_ext_in.
    intros a Ha. apply Hedit. now apply Hfresh.
Qed.

Lemma updates_keep_identity_witness :
  App.handleUpdateAnnotationPosition {[ 1%Z := letterPage ]} "zz" 5 6 [pointA; pointB]
    = [pointA; pointB] /\
  App.updateAnnotationFromDisplay {[ 1%Z := letterPage ]} TOP_LEFT "zz" (Some 5) None
    [pointA; pointB] = [pointA; pointB].
Proof.
  destruct (updates_keep_identity {[ 1%Z := letterPage ]} TOP_LEFT "zz" [pointA; pointB])
    as [Hpos Hedit].
  split.
  - apply (Hpos 5 6). intros a [<- | [<- | []]]; discriminate.
  - apply (Hedit (Some 5) None). intros a [<- | [<- | []]]; discriminate.
Defined.

(** ** Drags *)

(** A move of a drag is one position update of the whole list. *)
Lemma dragUpdate_map
    (pageDimensions : gmap Z PageDimensions) (pageNumber : Z) (scale : Q)
    (dragState : PdfCanvas.DragState) (e : PdfCanvas.MouseEvent)
    (prev : list AnnotationPoint) :
  exists newX newY,
    forall l,
      App.dragUpdate pageDimensions pageNumber scale dragState e l
      = map (App.updateOnePosition pageDimensions (PdfCanvas.dragId dragState) newX newY) l.
Proof.
  unfold App.dragUpdate, PdfCanvas.handleWindowMouseMove, App.handleUpdateAnnotationPosition.
  destruct (pageDimensions !! pageNumber); eexists; eexists; intros l; reflexivity.
Qed.

Lemma updateOnePosition_twice
    (pageDimensions : gmap Z PageDimensions) (target : string)
    (x1 y1 x2 y2 : Q) (a : AnnotationPoint) :
  App.updateOnePosition pageDimensions target x2 y2
    (App.updateOnePosition pageDimensions target x1 y1 a)
  = App.updateOnePosition pageDimensions target x2 y2 a.
Proof.
  unfold App.updateOnePosition.
  destruct (negb (String.eqb (id a) target)) eqn:E; cbn [id pageIndex displayY].
  - now rewrite E.
  - rewrite E. now destruct (pageDimensions !! pageIndex a).
Qed.

(** X4.  Last write wins: in the course of one drag, the list after a
    move depends on that move only, not on the moves applied before it;
    in particular a move applied twice gives what it gives once. *)
Theorem drag_last_write_wins
    (pageDimensions : gmap Z PageDimensions) (pageNumber : Z) (scale : Q)
    (dragState : PdfCanvas.DragState) (e1 e2 : PdfCanvas.MouseEvent)
    (prev : list AnnotationPoint) :
  App.dragUpdate pageDimensions pageNumber scale dragState e2
    (App.dragUpdate pageDimensions pageNumber scale dragState e1 prev)
  = App.dragUpdate pageDimensions pageNumber scale dragState e2 prev.
Proof.
  destruct (dragUpdate_map pageDimensions pageNumber scale dragState e1 prev)
    as (x1 & y1 & H1).
  destruct (dragUpdate_map pageDimensions pageNumber scale dragState e2 prev)
    as (x2 & y2 & H2).
  rewrite H1, !H2, map_map. apply map_ext. intros a. apply updateOnePosition_twice.
Qed.




(** ** Clicks *)



(** ** Page navigation and the view *)

(** X7.  In a document of at least one page, the page number stays a
    page of the document whatever the step asked for; a step that lands
    on a page of the document is taken as it is, one that falls short
    stops at page 1 and one that overshoots stops at the last page. *)
Theorem changePage_bounds (numPages offset prev : Z) (Hpages : (1 <= numPages)%Z) :
  (1 <= App.changePage numPages offset prev <= numPages)%Z /\
  ((1 <= prev + offset <= numPages)%Z ->
   App.changePage numPages offset prev = (prev + offset)%Z) /\
  ((prev + offset < 1)%Z -> App.changePage numPages offset prev = 1%Z) /\
  ((numPages < prev + offset)%Z -> App.changePage numPages offset prev = numPages).
Proof. unfold App.changePage. lia. Qed.

Lemma changePage_bounds_witness :
  App.changePage 3 1 3 = 3%Z /\ App.changePage 3 (-1) 1 = 1%Z /\ App.changePage 3 1 1 = 2%Z.
Proof.
  assert (H3 : (1 <= 3)%Z) by lia.
  destruct (changePage_bounds 3 1 3 H3) as (_ & _ & _ & Hhigh).
  destruct (changePage_bounds 3 (-1) 1 H3) as (_ & _ & Hlow & _).
  destruct (changePage_bounds 3 1 1 H3) as (_ & Hin & _ & _).
  split_all; [apply Hhigh | apply Hlow | apply Hin]; lia.
Defined.

Lemma handleViewEvent_scale (v : App.Viewport) (event : App.ViewEvent) :
  0.5 <= App.scale v <= 3 ->
  0.5 <= App.scale (App.handleViewEvent v event) <= 3.
Proof.
  intros [Hlow Hhigh].
  destruct event as [ | | | ctrl dx dy | space button e | e | | ]; cbn.
  - unfold Js.Math_max.
    destruct (Q.max_spec 0.5 (App.scale v - 0.2)) as [[H ->] | [H ->]]; lra.
  - unfold Js.Math_min.
    destruct (Q.min_spec 3.0 (App.scale v + 0.2)) as [[H ->] | [H ->]]; lra.
  - lra.
  - unfold App.handleWheel. destruct ctrl; cbn; lra.
  - unfold App.handleCanvasMouseDown. destruct (_ || _)%bool; cbn; lra.
  - unfold App.handleCanvasMouseMove.
    destruct (App.isDraggingCanvas v), (App.dragStartRef v); cbn; lra.
  - lra.
  - lra.
Qed.

(** X8.  Whatever the zoom clicks, resets, wheel events, canvas drags
    and releases of the Space key since a file was opened, the scale lies between 0.5 and 3: it
    is never zero, so the divisions by the scale in the click and drag
    handlers are by a number that is not zero. *)
Theorem scale_stays_in_range (events : list App.ViewEvent) :
  let v := foldl App.handleViewEvent App.initialViewport events in
  0.5 <= App.scale v <= 3 /\ ~ App.scale v == 0.
Proof.
  cbn zeta.
  assert (H : 0.5 <= App.scale (foldl App.handleViewEvent App.initialViewport events) <= 3).
  { assert (Hinit : 0.5 <= App.scale App.initialViewport <= 3) by (cbn; lra).
    revert Hinit. generalize App.initialViewport.
    induction events as [|event events IH]; intros v Hv; cbn [foldl]; [exact Hv |].
    apply IH. now apply handleViewEvent_scale. }
  split; [exact H | lra].
Qed.

(** Six clicks on the zoom-out button leave the scale at 0.5, and ten
    more on the zoom-in button at 2.5. *)
Lemma scale_stays_in_range_witness :
  let zoomedOut := foldl App.handleViewEvent App.initialViewport (repeat App.ZoomOutClick 6) in
  let zoomedIn := foldl App.handleViewEvent zoomedOut (repeat App.ZoomInClick 10) in
  App.scale zoomedOut == 0.5 /\ App.scale zoomedIn == 2.5 /\ ~ App.scale zoomedOut == 0.
Proof.
  intros zoomedOut zoomedIn.
  destruct (scale_stays_in_range (repeat App.ZoomOutClick 6)) as [_ Hnonzero].
  split_all; [vm_compute; reflexivity | vm_compute; reflexivity | exact Hnonzero].
Defined.

Lemma last_cons_default {A : Type} (a d : A) (l : list A) :
  List.last (a :: l) d = List.last l a.
Proof.
  revert a d. induction l as [|b l IH]; intros a d; [reflexivity |].
  change (List.last (a :: b :: l) d) with (List.last (b :: l) d).
  rewrite (IH b d). symmetry. apply IH.
Qed.

Lemma pan_moves (moves : list PdfCanvas.MouseEvent) :
  forall (v : App.Viewport) (e0 : PdfCanvas.MouseEvent),
    App.isDraggingCanvas v = true ->
    App.dragStartRef v
      = Some {| cx := PdfCanvas.clientX e0; cy := PdfCanvas.clientY e0 |} ->
    let v' := foldl (fun v e => App.handleCanvasMouseMove e v) v moves in
    let e := List.last moves e0 in
    cx (App.pan v') == cx (App.pan v) + (PdfCanvas.clientX e - PdfCanvas.clientX e0) /\
    cy (App.pan v') == cy (App.pan v) + (PdfCanvas.clientY e - PdfCanvas.clientY e0) /\
    App.scale v' = App.scale v.
Proof.
  induction moves as [|e moves IH]; intros v e0 Hdrag Hstart; cbn zeta.
  - cbn. split_all; [ring | ring | reflexivity].
  - cbn [foldl]. rewrite last_cons_default.
    set (v1 := App.handleCanvasMouseMove e v).
    assert (Hv1 : v1 = {| App.scale := App.scale v;
                          App.pan := {| cx := cx (App.pan v)
                                              + (PdfCanvas.clientX e - PdfCanvas.clientX e0);
                                        cy := cy (App.pan v)
                                              + (PdfCanvas.clientY e - PdfCanvas.clientY e0) |};
                          App.isDraggingCanvas := true;
                          App.dragStartRef :=
                            Some {| cx := PdfCanvas.clientX e; cy := PdfCanvas.clientY e |} |}).
    { subst v1. unfold App.handleCanvasMouseMove. now rewrite Hdrag, Hstart. }
    destruct (IH v1 e) as (Hx & Hy & Hs); [now rewrite Hv1 | now rewrite Hv1 |].
    cbn zeta in Hx, Hy, Hs. rewrite Hx, Hy, Hs, Hv1. cbn [App.pan App.scale cx cy].
    split_all; [ring | ring | reflexivity].
Qed.

(** X9.  The canvas follows the pointer.  After a press that starts a pan
    (Space held, or the middle button) and any number of moves, the pan
    has changed by the distance from the press to the last move, whatever
    the path in between; the scale is untouched, and the release keeps
    the pan. *)
Theorem pan_follows_pointer
    (v : App.Viewport) (isSpacePressed : bool) (button : Z)
    (press : PdfCanvas.MouseEvent) (moves : list PdfCanvas.MouseEvent)
    (Hpan : (isSpacePressed || (button =? 1)%Z)%bool = true) :
  let pressed := App.handleCanvasMouseDown isSpacePressed button press v in
  let moved := foldl (fun v e => App.handleCanvasMouseMove e v) pressed moves in
  let released := App.handleCanvasMouseUp moved in
  let e := List.last moves press in
  cx (App.pan released) == cx (App.pan v) + (PdfCanvas.clientX e - PdfCanvas.clientX press) /\
  cy (App.pan released) == cy (App.pan v) + (PdfCanvas.clientY e - PdfCanvas.clientY press) /\
  App.scale released = App.scale v /\
  App.isDraggingCanvas released = false.
Proof.
  cbn zeta. unfold App.handleCanvasMouseDown. rewrite Hpan.
  set (pressed := App.mkViewport _ _ _ _).
  destruct (pan_moves moves pressed press eq_refl eq_refl) as (Hx & Hy & Hs).
  cbn zeta in Hx, Hy, Hs. cbn [App.handleCanvasMouseUp App.pan App.scale App.isDraggingCanvas].
  split_all; [exact Hx | exact Hy | exact Hs | reflexivity].
Qed.

Lemma pan_follows_pointer_witness :
  let released :=
    App.handleCanvasMouseUp
      (foldl (fun v e => App.handleCanvasMouseMove e v)
         (App.handleCanvasMouseDown true 0 sampleClick App.initialViewport)
         [sampleMove; {| PdfCanvas.clientX := 150; PdfCanvas.clientY := 100 |}]) in
  cx (App.pan released) == 30 /\ cy (App.pan released) == -22.
Proof.
  destruct (pan_follows_pointer App.initialViewport true 0 sampleClick
              [sampleMove; {| PdfCanvas.clientX := 150; PdfCanvas.clientY := 100 |}]
              eq_refl) as (Hx & Hy & _).
  cbn zeta in *. split; [rewrite Hx | rewrite Hy]; reflexivity.
Defined.

(** ** Field edits and what the sidebar shows *)





(** ** Label placement, live and exported *)

(** X12.  The label of the live view, for an annotation whose cache is in
    sync with the known height of its page: it goes to the left of the
    dot (its [right] property is set) exactly when a label 110 wide would
    pass the right edge of the page ([x + 110 > width]) and below the dot
    (its [top] property is set) exactly when a label 30 high would pass
    the top edge ([y + 30 > height]); each axis sets one of its two
    properties and leaves the other unset.  With no dimensions the label
    goes up and to the right. *)
Theorem preview_label_anchor (d : PageDimensions) (ann : AnnotationPoint)
    (Hsync : displayCacheInvariant (height d) ann) :
  let style := PdfCanvas.getLabelPositionStyle (Some d) ann in
  (width d < x ann + 110 ->
   PdfCanvas.cssRight style = Some "4px"%string /\ PdfCanvas.cssLeft style = None) /\
  (x ann + 110 <= width d ->
   PdfCanvas.cssLeft style = Some "4px"%string /\ PdfCanvas.cssRight style = None) /\
  (height d < y ann + 30 ->
   PdfCanvas.cssTop style = Some "4px"%string /\ PdfCanvas.cssBottom style = None) /\
  (y ann + 30 <= height d ->
   PdfCanvas.cssBottom style = Some "4px"%string /\ PdfCanvas.cssTop style = None) /\
  PdfCanvas.getLabelPositionStyle None ann
  = {| PdfCanvas.cssLeft := Some "4px"%string; PdfCanvas.cssRight := None;
       PdfCanvas.cssTop := None; PdfCanvas.cssBottom := Some "4px"%string |}.
Proof.
  destruct Hsync as [Hsx Hsy]. cbn zeta. unfold PdfCanvas.getLabelPositionStyle.
  cbn [PdfCanvas.cssLeft PdfCanvas.cssRight PdfCanvas.cssTop PdfCanvas.cssBottom].
  split_all; try reflexivity; intros H.
  - assert (E : Js.gt (displayX ann + 110) (width d) = true) by (apply gt_true; lra).
    now rewrite E.
  - assert (E : Js.gt (displayX ann + 110) (width d) = false) by (apply gt_false; lra).
    now rewrite E.
  - assert (E : Js.lt (displayY ann) 30 = true) by (apply gt_true; lra).
    now rewrite E.
  - assert (E : Js.lt (displayY ann) 30 = false) by (apply gt_false; lra).
    now rewrite E.
Qed.

Lemma preview_label_anchor_witness :
  let near :=
    {| id := "n"; pageIndex := 1; x := 600; y := 780; displayX := 600; displayY := 12 |} in
  PdfCanvas.cssRight (PdfCanvas.getLabelPositionStyle (Some letterPage) near)
    = Some "4px"%string /\
  PdfCanvas.cssTop (PdfCanvas.getLabelPositionStyle (Some letterPage) near)
    = Some "4px"%string /\
  PdfCanvas.cssLeft (PdfCanvas.getLabelPositionStyle (Some letterPage) sampleAnnotation)
    = Some "4px"%string /\
  PdfCanvas.cssBottom (PdfCanvas.getLabelPositionStyle (Some letterPage) sampleAnnotation)
    = Some "4px"%string.
Proof.
  intros near.
  assert (Hnear : displayCacheInvariant (height letterPage) near)
    by (split; vm_compute; reflexivity).
  assert (Hsample : displayCacheInvariant (height letterPage) sampleAnnotation)
    by (split; vm_compute; reflexivity).
  destruct (preview_label_anchor letterPage near Hnear) as (Hright & _ & Htop & _).
  destruct (preview_label_anchor letterPage sampleAnnotation Hsample)
    as (_ & Hleft & _ & Hbottom & _).
  split_all.
  - apply Hright. reflexivity.
  - apply Htop. reflexivity.
  - apply Hleft. discriminate.
  - apply Hbottom. discriminate.
Defined.

(** X13.  The label box of the exporter, for a dot of radius [r] that is
    not negative: the box touches the dot on the side it is placed (its
    left edge at [x + r] or its right edge at [x - r], its bottom edge at
    [y + r] or its top edge at [y - r]); for a marker that is not beyond
    the right or the top edge of the page, the box does not pass that
    edge; and when [r] is positive the centre of the marker is never
    within the box, on either axis. *)
Theorem label_box_placement (r x y boxW boxH pageWidth pageHeight : Q)
    (Hr : 0 <= r) :
  let box := PdfModifier.boxPosition r x y boxW boxH pageWidth pageHeight in
  (cx box == x + r \/ cx box + boxW == x - r) /\
  (cy box == y + r \/ cy box + boxH == y - r) /\
  (x <= pageWidth -> cx box + boxW <= pageWidth) /\
  (y <= pageHeight -> cy box + boxH <= pageHeight) /\
  (0 < r -> ~ (cx box <= x <= cx box + boxW)) /\
  (0 < r -> ~ (cy box <= y <= cy box + boxH)).
Proof.
  cbn zeta. unfold PdfModifier.boxPosition. cbn [cx cy].
  destruct (Js.gt (x + r + boxW) pageWidth) eqn:Ex;
    [apply gt_true in Ex | apply gt_false in Ex];
    destruct (Js.gt (y + r + boxH) pageHeight) eqn:Ey;
    [apply gt_true in Ey | apply gt_false in Ey | apply gt_true in Ey | apply gt_false in Ey];
    split_all; try (intros; lra); try (left; lra); try (right; lra).
Qed.

Lemma label_box_placement_witness :
  let box := PdfModifier.boxPosition 3 600 700 40 20 612 792 in
  cx box + 40 <= 612 /\ cy box + 20 <= 792 /\ ~ (cx box <= 600 <= cx box + 40).
Proof.
  intros box.
  assert (Hr : 0 <= 3) by discriminate.
  destruct (label_box_placement 3 600 700 40 20 612 792 Hr) as (_ & _ & Hx & Hy & Hcx & _).
  split_all.
  - apply Hx. discriminate.
  - apply Hy. discriminate.
  - apply Hcx. reflexivity.
Defined.

(** ** The sidebar list *)

Lemma StronglySorted_lookup {A : Type} (R : A -> A -> Prop) (l : list A) :
  StronglySorted R l ->
  forall (i j : nat) (a b : A),
    (i < j)%nat -> l !! i = Some a -> l !! j = Some b -> R a b.
Proof.
  induction 1 as [|c l Hl IH Hall]; intros i j a b Hij Hi Hj.
  - discriminate.
  - destruct j as [|j]; [lia |]. destruct i as [|i]; cbn in Hi, Hj.
    + injection Hi as <-. rewrite Forall_forall in Hall.
      apply Hall. apply list_elem_of_lookup. now exists j.
    + apply (IH i j); [lia | assumption | assumption].
Qed.

Lemma sortedAnnotations_pages (annotations : list AnnotationPoint) :
  StronglySorted (fun a b => (pageIndex a <= pageIndex b)%Z)
    (App.sortedAnnotations annotations).
Proof.
  unfold App.sortedAnnotations.
  apply (sort_StronglySorted App.compareAnnotations
           (fun a b => (pageIndex a <= pageIndex b)%Z)) with (P := fun _ => True).
  - intros a b H. now apply readingOrder_pages, compare_gt_order.
  - intros a b H. now apply readingOrder_pages, compare_not_gt_order.
  - intros a b c _ _ _. lia.
  - apply Forall_forall. auto.
Qed.

(** X14.  In the sidebar, for a list whose pages ascend, as those of the
    ordered view do, a page header is shown above an entry exactly when
    no earlier entry is of the same page: every page that has annotations
    gets one header, above the first of them. *)
Theorem page_header_once
    (sorted : list AnnotationPoint) (i : nat) (ann : AnnotationPoint)
    (Hsorted : StronglySorted (fun a b => (pageIndex a <= pageIndex b)%Z) sorted)
    (Hann : sorted !! i = Some ann) :
  App.showPageHeader sorted i ann = true
  <-> (forall (j : nat) (before : AnnotationPoint),
          (j < i)%nat -> sorted !! j = Some before ->
          pageIndex before <> pageIndex ann).
Proof.
  unfold App.showPageHeader. destruct i as [|i]; cbn [Nat.eqb orb].
  - split; [intros _ j before Hj; lia | reflexivity].
  - replace (S i - 1)%nat with i by lia.
    destruct (lookup_lt_is_Some_2 sorted i) as [prior Hprior].
    { apply lookup_lt_Some in Hann. lia. }
    rewrite Hprior, negb_true_iff, Z.eqb_neq. split.
    + intros Hne j before Hj Hbefore.
      pose proof (StronglySorted_lookup _ _ Hsorted i (S i) prior ann
                    ltac:(lia) Hprior Hann) as Hle.
      destruct (decide (j = i)) as [-> | Hji].
      * rewrite Hprior in Hbefore. injection Hbefore as <-. cbn in Hle. lia.
      * pose proof (StronglySorted_lookup _ _ Hsorted j i before prior
                      ltac:(lia) Hbefore Hprior) as Hle'.
        cbn in Hle, Hle'. lia.
    + intros Hfirst Heq. apply (Hfirst i prior); [lia | exact Hprior | now symmetry].
Qed.

(** In the ordered view of an annotation of page 2 and two of page 1, the
    first entry and the last have a header, the second has none. *)
Lemma page_header_once_witness :
  let sorted := App.sortedAnnotations [strayAnnotation; pointA; pointB] in
  sorted = [pointB; pointA; strayAnnotation] /\
  App.showPageHeader sorted 0 pointB = true /\
  App.showPageHeader sorted 1 pointA = false /\
  App.showPageHeader sorted 2 strayAnnotation = true.
Proof.
  intros sorted.
  assert (Hview : sorted = [pointB; pointA; strayAnnotation]) by (vm_compute; reflexivity).
  pose proof (sortedAnnotations_pages [strayAnnotation; pointA; pointB]) as Hsorted.
  fold sorted in Hsorted. clearbody sorted. subst sorted.
  split_all.
  - reflexivity.
  - apply (page_header_once _ 0 pointB Hsorted eq_refl).
    intros j before Hj. lia.
  - apply not_true_iff_false. intros H.
    apply (proj1 (page_header_once _ 1 pointA Hsorted eq_refl) H 0%nat pointB);
      [lia | reflexivity | reflexivity].
  - apply (page_header_once _ 2 strayAnnotation Hsorted eq_refl).
    intros j before Hj Hbefore.
    destruct j as [|[|j]]; [| | lia]; injection Hbefore as <-; discriminate.
Defined.

(** ** The dimensions recorded when a file is opened *)

Lemma forEachPage_lookup (pages : list PdfModifier.PDFPage) :
  forall (idx : nat) (dims : gmap Z PageDimensions) (k : Z),
    App.forEachPage idx pages dims !! k =
    if decide (Z.of_nat idx + 1 <= k <= Z.of_nat idx + Z.of_nat (length pages))%Z
    then PdfModifier.getSize <$> pages !! Z.to_nat (k - Z.of_nat idx - 1)
    else dims !! k.
Proof.
  induction pages as [|p pages IH]; intros idx dims k; cbn [App.forEachPage length].
  - rewrite decide_False by lia. reflexivity.
  - rewrite IH.
    destruct (decide (Z.of_nat (S idx) + 1 <= k
                      <= Z.of_nat (S idx) + Z.of_nat (length pages))%Z) as [Hin | Hout].
    + rewrite decide_True by lia.
      replace (Z.to_nat (k - Z.of_nat idx - 1))
        with (S (Z.to_nat (k - Z.of_nat (S idx) - 1))) by lia.
      reflexivity.
    + destruct (decide (k = Z.of_nat idx + 1)%Z) as [-> | Hne].
      * rewrite decide_True by lia. rewrite lookup_insert_eq.
        replace (Z.to_nat (Z.of_nat idx + 1 - Z.of_nat idx - 1)) with 0%nat by lia.
        cbn. now destruct (PdfModifier.getSize p).
      * rewrite decide_False by lia. now rewrite lookup_insert_ne.
Qed.

(** X15.  When the bytes of the opened file parse, the dimensions
    recorded are those of its pages: page [k] of the document has the
    entry [k], holding the size of that page, and no other key has an
    entry.  When they do not parse, nothing is recorded, and every
    conversion falls back to the canonical coordinates. *)
Theorem preloaded_dimensions (lib : PdfModifier.PdfLib) (buffer : list Byte.byte) :
  (forall pages,
      PdfModifier.load lib buffer = PdfModifier.Ok pages ->
      (forall (i : nat) (page : PdfModifier.PDFPage),
          pages !! i = Some page ->
          App.preloadDimensions lib buffer !! (Z.of_nat i + 1)%Z
            = Some (PdfModifier.getSize page)) /\
      (forall k : Z,
          ~ (1 <= k <= Z.of_nat (length pages))%Z ->
          App.preloadDimensions lib buffer !! k = None)) /\
  (forall e,
      PdfModifier.load lib buffer = PdfModifier.Throw e ->
      App.preloadDimensions lib buffer = ∅ /\
      forall origin ann,
        App.getDisplayCoordinates (App.preloadDimensions lib buffer) origin ann
        = {| cx := x ann; cy := y ann |}).
Proof.
  unfold App.preloadDimensions. split.
  - intros pages ->. split.
    + intros i page Hi. rewrite forEachPage_lookup.
      pose proof (lookup_lt_Some _ _ _ Hi). rewrite decide_True by lia.
      replace (Z.to_nat (Z.of_nat i + 1 - Z.of_nat 0 - 1)) with i by lia.
      now rewrite Hi.
    + intros k Hk. rewrite forEachPage_lookup. rewrite decide_False by lia.
      apply lookup_empty.
  - intros e ->. split; [reflexivity |].
    intros origin ann. unfold App.getDisplayCoordinates. now rewrite lookup_empty.
Qed.

Lemma preloaded_dimensions_witness :
  App.preloadDimensions twoPageLib [] !! 1%Z = Some letterPage /\
  App.preloadDimensions twoPageLib [] !! 2%Z = Some {| width := 842; height := 595 |} /\
  App.preloadDimensions twoPageLib [] !! 0%Z = None /\
  App.preloadDimensions twoPageLib [] !! 3%Z = None /\
  App.preloadDimensions failingLoad [] = ∅.
Proof.
  destruct (preloaded_dimensions twoPageLib []) as [Hok _].
  destruct (Hok twoPages eq_refl) as [Hin Hout].
  destruct (preloaded_dimensions failingLoad []) as [_ Hfail].
  split_all.
  - apply (Hin 0%nat blankLetterPage). reflexivity.
  - apply (Hin 1%nat {| PdfModifier.getSize := {| width := 842; height := 595 |};
                        PdfModifier.content := [] |}).
    reflexivity.
  - apply Hout. cbn. lia.
  - apply Hout. cbn. lia.
  - apply (Hfail "No PDF header found"%string). reflexivity.
Defined.

(** X16.  The sidebar, the canvas and the export agree.  For an
    annotation of a page [k] of the opened document, the coordinates the
    sidebar shows under an origin are those the exporter prints for that
    page, and the label the canvas shows is the text the exporter draws;
    for an annotation of no page of the document, no dimensions are
    known. *)
Theorem sidebar_and_export_agree
    (lib : PdfModifier.PdfLib) (buffer : list Byte.byte)
    (pages : list PdfModifier.PDFPage) (origin : CoordinateOrigin)
    (ann : AnnotationPoint)
    (Hload : PdfModifier.load lib buffer = PdfModifier.Ok pages) :
  (forall page,
      (1 <= pageIndex ann)%Z ->
      pages !! Z.to_nat (pageIndex ann - 1) = Some page ->
      let d := PdfModifier.getSize page in
      App.getDisplayCoordinates (App.preloadDimensions lib buffer) origin ann
        = PdfModifier.displayCoords origin (width d) (height d) ann /\
      PdfCanvas.getLabelText origin (App.preloadDimensions lib buffer !! pageIndex ann) ann
        = PdfModifier.labelText origin (width d) (height d) ann /\
      PdfCanvas.getLabelText origin (App.preloadDimensions lib buffer !! pageIndex ann) ann
        = labelText_spec origin d ann) /\
  (~ (1 <= pageIndex ann <= Z.of_nat (length pages))%Z ->
   App.preloadDimensions lib buffer !! pageIndex ann = None).
Proof.
  unfold App.preloadDimensions. rewrite Hload. split.
  - intros page Hk Hpage. cbn zeta. set (d := PdfModifier.getSize page).
    assert (Hd : App.forEachPage 0 pages ∅ !! pageIndex ann = Some d).
    { rewrite forEachPage_lookup. pose proof (lookup_lt_Some _ _ _ Hpage).
      rewrite decide_True by lia.
      replace (pageIndex ann - Z.of_nat 0 - 1)%Z with (pageIndex ann - 1)%Z by lia.
      now rewrite Hpage. }
    unfold App.getDisplayCoordinates, PdfCanvas.getLabelText, PdfCanvas.getLabelCoords,
      PdfCanvas.labelTemplate, PdfModifier.labelText, PdfModifier.displayCoords,
      labelText_spec.
    rewrite Hd. destruct origin; split_all; reflexivity.
  - intros Hk. rewrite forEachPage_lookup. rewrite decide_False by lia.
    apply lookup_empty.
Qed.

Lemma sidebar_and_export_agree_witness :
  App.getDisplayCoordinates (App.preloadDimensions twoPageLib []) TOP_RIGHT strayAnnotation
    = {| cx := 842 - 100; cy := 595 - 700 |} /\
  PdfCanvas.getLabelText TOP_RIGHT (App.preloadDimensions twoPageLib [] !! 2%Z) strayAnnotation
    = "x:742, y:-105"%string.
Proof.
  destruct (sidebar_and_export_agree twoPageLib [] twoPages TOP_RIGHT strayAnnotation eq_refl)
    as [Hin _].
  destruct (Hin {| PdfModifier.getSize := {| width := 842; height := 595 |};
                   PdfModifier.content := [] |}) as (Hcoords & Htext & _).
  - cbn. lia.
  - reflexivity.
  - split.
    + rewrite Hcoords. reflexivity.
    + etransitivity; [exact Htext | vm_compute; reflexivity].
Defined.

(** ** What an export leaves alone *)

Lemma pageAnnotations_none (k : Z) (annotations : list AnnotationPoint) :
  (forall a, In a annotations -> pageIndex a <> k) -> pageAnnotations k annotations = [].
Proof.
  intros Hnone. unfold pageAnnotations.
  induction annotations as [|a annotations IH]; [reflexivity |].
  rewrite filter_cons_False by (apply Hnone; now left).
  apply IH. intros b Hb. apply Hnone. now right.
Qed.

(** X17.  The drawing pass of an export leaves every page alone that has
    no annotation in the list: with an empty list the document is
    unchanged, and so it is when every annotation is of a page the
    document does not have. *)
Theorem export_untouched_pages
    (font : PdfModifier.PDFFont) (origin : CoordinateOrigin)
    (annotations : list AnnotationPoint) (pages : list PdfModifier.PDFPage) :
  PdfModifier.drawAll font origin [] pages = pages /\
  (forall i : nat,
      (forall a, In a annotations -> pageIndex a <> (Z.of_nat i + 1)%Z) ->
      PdfModifier.drawAll font origin annotations pages !! i = pages !! i) /\
  ((forall a, In a annotations ->
      ~ (1 <= pageIndex a <= Z.of_nat (length pages))%Z) ->
   PdfModifier.drawAll font origin annotations pages = pages).
Proof.
  assert (Hpage : forall i : nat,
             (forall a, In a annotations -> pageIndex a <> (Z.of_nat i + 1)%Z) ->
             PdfModifier.drawAll font origin annotations pages !! i = pages !! i).
  { intros i Hnone. destruct (pages !! i) as [page|] eqn:Hi.
    - rewrite (drawAll_lookup _ _ _ _ _ _ Hi), (pageAnnotations_none _ _ Hnone).
      reflexivity.
    - apply lookup_ge_None. rewrite drawAll_length. now apply lookup_ge_None. }
  split_all.
  - unfold PdfModifier.drawAll. cbn [PdfModifier.groupByPage foldl].
    now rewrite map_to_list_empty.
  - exact Hpage.
  - intros Hout. apply list_eq. intros i.
    destruct (decide (i < length pages)%nat) as [Hlt | Hge].
    + apply Hpage. intros a Ha Heq. apply (Hout a Ha). lia.
    + transitivity (@None PdfModifier.PDFPage).
      * apply lookup_ge_None. rewrite drawAll_length. lia.
      * symmetry. apply lookup_ge_None. lia.
Qed.

Lemma export_untouched_pages_witness :
  PdfModifier.drawAll sampleFont TOP_LEFT [sampleAnnotation] twoPages !! 1%nat
    = twoPages !! 1%nat /\
  PdfModifier.drawAll sampleFont TOP_LEFT
    [{| id := "r"; pageIndex := 0; x := 1; y := 2; displayX := 1; displayY := 2 |};
     {| id := "s"; pageIndex := 3; x := 1; y := 2; displayX := 1; displayY := 2 |}]
    twoPages = twoPages.
Proof.
  split.
  - apply (proj1 (proj2 (export_untouched_pages sampleFont TOP_LEFT [sampleAnnotation]
                           twoPages)) 1%nat).
    intros a [<- | []]. discriminate.
  - apply export_untouched_pages.
    intros a [<- | [<- | []]]; cbn; lia.
Defined.

(** ** [handleSave] *)

(** X18.  [handleSave] does nothing when no file is loaded.  When the
    export succeeds it triggers one download, named after the file with
    the prefix [annotated_], and leaves the error message as it was: a
    message left by an earlier failure is not cleared. *)
Theorem handleSave_outcomes
    (lib : PdfModifier.PdfLib) (fileData : option (list Byte.byte)) (file : option string)
    (annotations : list AnnotationPoint) (origin : CoordinateOrigin)
    (error : option string) (w : list PdfModifier.Download) :
  (fileData = None \/ file = None ->
   App.handleSave lib fileData file annotations origin error w = (error, w)) /\
  (forall bytes name w',
      fileData = Some bytes -> file = Some name ->
      PdfModifier.saveAnnotatedPdf lib bytes annotations name origin w
        = (PdfModifier.Ok tt, w') ->
      App.handleSave lib fileData file annotations origin error w = (error, w') /\
      exists out,
        w' = w ++ [{| PdfModifier.blob := out;
                      PdfModifier.download := ("annotated_" ++ name)%string |}]).
Proof.
  split.
  - intros [-> | ->]; [reflexivity | now destruct fileData].
  - intros bytes name w' -> -> Hok. unfold App.handleSave. rewrite Hok.
    split; [reflexivity |].
    destruct (saveAnnotatedPdf_ok_inv _ _ _ _ _ _ _ Hok) as (_ & _ & out & _ & _ & _ & Hw).
    now exists out.
Qed.

Lemma handleSave_outcomes_witness :
  App.handleSave sampleLib None (Some "doc.pdf"%string) [sampleAnnotation] TOP_LEFT None []
    = (None, []) /\
  App.handleSave sampleLib (Some []) (Some "doc.pdf"%string) [sampleAnnotation] TOP_LEFT
    (Some "Failed to save the PDF. Please try again."%string) []
    = (Some "Failed to save the PDF. Please try again."%string,
       [{| PdfModifier.blob := [Byte.x00]; PdfModifier.download := "annotated_doc.pdf" |}]).
Proof.
  split.
  - apply handleSave_outcomes. now left.
  - apply (proj2 (handleSave_outcomes sampleLib (Some []) (Some "doc.pdf"%string)
                    [sampleAnnotation] TOP_LEFT
                    (Some "Failed to save the PDF. Please try again."%string) [])
             [] "doc.pdf"%string); reflexivity.
Defined.
